(** * Mailjet state reporter: a shallow embedding and its properties

    The embedding follows [src/mailjet_state_reporter/__init__.py]:
    dictionaries are finite maps (or association lists where Python's
    insertion order is observable), exceptions are an explicit outcome,
    and the network, the log and the state file live in a [world] that
    every effectful function threads. *)

From Stdlib Require Import ZArith Lia Ascii.
From stdpp Require Import base option list strings gmap pretty.

Local Open Scope string_scope.
Local Open Scope Z_scope.
Local Open Scope list_scope.

(** ** Python values and exceptions *)

(** JSON scalars, as [json.loads] and [yaml.safe_load] produce them.  The
    provider's records are flat objects, so a scalar type is all the fields
    need.  Keys are compared structurally. *)
Inductive val : Type :=
  | VNone
  | VBool (b : bool)
  | VInt (z : Z)
  | VStr (s : string).

Global Instance val_eq_dec : EqDecision val.
Proof. solve_decision. Defined.

(** [str(v)] and the rendering of [v] inside an f-string. *)
Definition py_str (v : val) : string :=
  match v with
  | VNone => "None"
  | VBool true => "True"
  | VBool false => "False"
  | VInt z => pretty z
  | VStr s => s
  end.

(** A JSON object whose values are scalars: [dict[str, Any]]. *)
Abbreviation record := (gmap string val).

Inductive exn : Type :=
  | KeyError (key : string)
  | JSONDecodeError
  | RequestException
  | AttributeError
  | TypeError
  | FileNotFoundError
  | SystemExit (code : Z).

Global Instance exn_eq_dec : EqDecision exn.
Proof. solve_decision. Defined.

(** What a call does: return, raise, or (for the [while True] loop of the
    fetcher, which the model runs on fuel) run out of fuel. *)
Inductive outcome (A : Type) : Type :=
  | Ret (a : A)
  | Raise (e : exn)
  | OutOfFuel.
Arguments Ret {A} a.
Arguments Raise {A} e.
Arguments OutOfFuel {A}.

(** ** The world: provider, log and state file *)

Record HTTPBasicAuth : Type := { username : val; password : val }.

Record address : Type := { Email : string; Name : string }.

Record variables : Type := {
  delivery_stats : string;
  bounce_data : string;
  rep_start : string;
  rep_end : string;
  sub_account : string
}.

Record message : Type := {
  From : address;
  To : list address;
  TemplateID : val;
  TemplateLanguage : bool;
  Subject : string;
  Variables : variables
}.

(** One HTTP request, as [requests.get] and [requests.post] issue them. *)
Inductive call : Type :=
  | Get (api : string) (auth : HTTPBasicAuth) (params : gmap string val)
  | Post (api : string) (auth : HTTPBasicAuth)
         (headers : gmap string string) (Messages : list message).

(** A response body: undecodable, or a JSON object of which the fetcher
    reads the keys [Count] and [Data] (absent key = [None]). *)
Inductive content : Type :=
  | Garbage
  | Body (Count : option Z) (Data : option (list record)).

Inductive reply : Type :=
  | ConnectionFailed
  | Response (status_code : Z) (body : content).

Inductive level : Type := DEBUG | INFO | WARNING | ERROR.

Record log_record : Type := { lvl : level; msg : string; args : list string }.

(** The text of the state file: [json.load] fails on [FileEmpty], gives
    [None] on [FileNull] and a dictionary on [FileDict]. *)
Inductive file_json : Type :=
  | FileEmpty
  | FileNull
  | FileDict (m : gmap string Z).

Inductive fs_event : Type :=
  | OpenRead
  | OpenWrite
  | WriteText (t : file_json)
  | Flush
  | Fsync
  | Close.

(** The provider answers a request knowing the requests made before it. *)
Record world : Type := {
  remote : list call → call → reply;
  calls : list call;
  logged : list log_record;
  sync_file : option file_json;
  buffered : option file_json;
  fs_events : list fs_event
}.

Definition with_call (c : call) (w : world) : world :=
  {| remote := remote w; calls := calls w ++ [c]; logged := logged w;
     sync_file := sync_file w; buffered := buffered w;
     fs_events := fs_events w |}.

Definition with_log (r : log_record) (w : world) : world :=
  {| remote := remote w; calls := calls w; logged := logged w ++ [r];
     sync_file := sync_file w; buffered := buffered w;
     fs_events := fs_events w |}.

Definition with_fs (f b : option file_json) (e : fs_event) (w : world) : world :=
  {| remote := remote w; calls := calls w; logged := logged w;
     sync_file := f; buffered := b; fs_events := fs_events w ++ [e] |}.

(** ** The monad of effectful code *)

Definition M (A : Type) : Type := world → outcome A * world.

Definition ret {A} (a : A) : M A := λ w, (Ret a, w).
Definition raise {A} (e : exn) : M A := λ w, (Raise e, w).
Definition out_of_fuel {A} : M A := λ w, (OutOfFuel, w).

Definition bind {A B} (m : M A) (k : A → M B) : M B :=
  λ w, match m w with
       | (Ret a, w') => k a w'
       | (Raise e, w') => (Raise e, w')
       | (OutOfFuel, w') => (OutOfFuel, w')
       end.

Notation "x <- c1 ;; c2" := (bind c1 (λ x, c2))
  (at level 100, c1 at next level, right associativity).
Notation "c1 ;; c2" := (bind c1 (λ _, c2))
  (at level 100, right associativity).

(** [try: body except (caught classes) as err: handler err]. *)
Definition try_except {A} (body : M A) (caught : exn → bool)
    (handler : exn → M A) : M A :=
  λ w, match body w with
       | (Raise e, w') => if caught e then handler e w' else (Raise e, w')
       | r => r
       end.

(** [d[key]] on a dictionary whose lookup gave [o]. *)
Definition getitem {A} (key : string) (o : option A) : M A :=
  match o with
  | Some a => ret a
  | None => raise (KeyError key)
  end.

Definition exn_str (e : exn) : string :=
  match e with
  | KeyError k => k
  | JSONDecodeError => "JSONDecodeError"
  | RequestException => "RequestException"
  | AttributeError => "AttributeError"
  | TypeError => "TypeError"
  | FileNotFoundError => "FileNotFoundError"
  | SystemExit c => pretty c
  end.

Definition _LOGGER (l : level) (m : string) (a : list string) : M unit :=
  λ w, (Ret tt, with_log {| lvl := l; msg := m; args := a |} w).

(** [requests.get(api, auth=auth, params=params, timeout=10)]. *)
Definition requests_get (api : string) (auth : HTTPBasicAuth)
    (params : gmap string val) : M (Z * content) :=
  λ w, let c := Get api auth params in
       match remote w (calls w) c with
       | ConnectionFailed => (Raise RequestException, with_call c w)
       | Response code body => (Ret (code, body), with_call c w)
       end.

(** [requests.post(api, data=json.dumps(body), auth=auth, headers=headers,
    timeout=10)]. *)
Definition requests_post (api : string) (auth : HTTPBasicAuth)
    (headers : gmap string string) (body : list message) : M (Z * content) :=
  λ w, let c := Post api auth headers body in
       match remote w (calls w) c with
       | ConnectionFailed => (Raise RequestException, with_call c w)
       | Response code body => (Ret (code, body), with_call c w)
       end.

(** [json.loads(response.content)]. *)
Definition json_loads (c : content) : M (option Z * option (list record)) :=
  match c with
  | Garbage => raise JSONDecodeError
  | Body n d => ret (n, d)
  end.

(** ** Constants *)

Definition MAILJET_BASE_URL : string := "https://api.mailjet.com".
Definition MAILJET_MESSAGE_API : string := MAILJET_BASE_URL +:+ "/v3/REST/message".
Definition MAILJET_APIKEY_API : string := MAILJET_BASE_URL +:+ "/v3/REST/apikey".
Definition MAILJET_MAIL_SEND_API : string := MAILJET_BASE_URL +:+ "/v3.1/send".

Definition BATCH_LIMIT : Z := 200.

Definition MESSAGE_FIELDS : list (string * string) :=
  [("ID", "id"); ("ArrivedAt", "date_time"); ("ContactAlt", "contact");
   ("Status", "state"); ("Subject", "subject")].

(** The double-quote character of the HTML attributes. *)
Definition dquote : string :=
  String (Ascii.Ascii false true false false false true false false) EmptyString.

Definition REPORT_DETAILS_FIELDS : list (string * string) :=
  [("date_time", "style=" +:+ dquote +:+ "white-space:nowrap;" +:+ dquote);
   ("contact",
    "style=" +:+ dquote +:+ "white-space:nowrap;width:200px;" +:+ dquote);
   ("subject", "")].

(** ** Paginated fetcher *)

Definition probe_caught (e : exn) : bool :=
  match e with
  | KeyError _ | JSONDecodeError | RequestException => true
  | _ => false
  end.

(** The [while True] loop of [get_mailjet_data_list]; one unit of fuel per
    page request. *)
Fixpoint fetch_pages (fuel : nat) (api : string) (auth : HTTPBasicAuth)
    (params : gmap string val) (count offset : Z) (data : list record)
    : M (list record) :=
  match fuel with
  | O => out_of_fuel
  | S fuel' =>
      let query_params :=
        params ∪ <["Limit" := VInt BATCH_LIMIT]> {["Offset" := VInt offset]} in
      response <- requests_get api auth query_params ;;
      batch <- json_loads (snd response) ;;
      batch_count <- getitem "Count" (fst batch) ;;
      rows <- getitem "Data" (snd batch) ;;
      let data := data ++ rows in
      let offset := offset + batch_count in
      if (batch_count =? 0) || (count <=? offset)
      then ret data
      else fetch_pages fuel' api auth params count offset data
  end.

Definition get_mailjet_data_list (fuel : nat) (api : string)
    (auth : HTTPBasicAuth) (params : option (gmap string val))
    : M (option (list record)) :=
  let params := default ∅ params in
  let query_params := params ∪ {["countOnly" := VInt 1]} in
  probed <-
    try_except
      (response <- requests_get api auth query_params ;;
       body <- json_loads (snd response) ;;
       count <- getitem "Count" (fst body) ;;
       ret (Some count))
      probe_caught
      (λ err,
         _LOGGER ERROR "Error fetching count from API %s: %s" [api; exn_str err] ;;
         ret None) ;;
  match probed with
  | None => ret None
  | Some count =>
      data <- fetch_pages fuel api auth params count 0 [] ;;
      ret (Some data)
  end.

(** ** Configuration

    The YAML document, field by field; an absent key is [None].  A
    subaccount also carries the two keys the validation adds to it,
    [profile_details] and [valid]. *)

Record global_settings : Type := {
  gs_timezone : option string;
  gs_time_format : option string;
  gs_report_days : option string;
  gs_default_max_report_days : option Z
}.

Record profile : Type := {
  pr_template_id : option val;
  pr_subject : option string;
  pr_from_email : option string;
  pr_from_name : option string;
  pr_time_format : option string;
  pr_report_in_detail : option (list val);
  pr_skip_if_no_details : option bool;
  pr_skip_if_no_data : option bool;
  pr_valid : option bool
}.

Record recipient : Type := {
  to_email : option string;
  to_name : option string
}.

Record subaccount : Type := {
  sa_name : option string;
  sa_profile : option string;
  sa_report_days : option string;
  sa_skip_if_no_details : option bool;
  sa_skip_if_no_data : option bool;
  sa_recipients : option (list recipient);
  sa_profile_details : option profile;
  sa_valid : option bool
}.

(** [config.get(key, {})] reads an absent section as an empty one, so the
    sections themselves are not optional here. *)
Record config : Type := {
  cfg_global_settings : global_settings;
  cfg_status_translations : gmap string string;
  cfg_profiles : list (string * profile);
  cfg_subaccount_reports : list subaccount
}.

(** ** Insertion-ordered dictionaries

    [message_stats] and [message_details] are rendered in insertion order,
    so they are association lists with unique keys. *)

Fixpoint alist_get {K V} `{EqDecision K} (k : K) (d : list (K * V)) : option V :=
  match d with
  | [] => None
  | (k', v) :: d' => if decide (k = k') then Some v else alist_get k d'
  end.

(** [d[k] = v]: in place when [k] is present, appended otherwise. *)
Fixpoint alist_set {K V} `{EqDecision K} (k : K) (v : V) (d : list (K * V))
    : list (K * V) :=
  match d with
  | [] => [(k, v)]
  | (k', v') :: d' =>
      if decide (k = k') then (k, v) :: d' else (k', v') :: alist_set k v d'
  end.

(** [for x in l: s = body(s, x)], an exception leaving the loop. *)
Fixpoint for_each {A S} (body : S → A → M S) (l : list A) (s : S) : M S :=
  match l with
  | [] => ret s
  | a :: l' => s' <- body s a ;; for_each body l' s'
  end.

(** [not d] for a container. *)
Definition is_empty {A} (l : list A) : bool :=
  match l with [] => true | _ => false end.

(** [needle in hay] on strings. *)
Fixpoint str_in (needle hay : string) : bool :=
  String.prefix needle hay ||
  match hay with
  | EmptyString => false
  | String _ rest => str_in needle rest
  end.

(** ** Library functions the program calls

    Time zones, [strftime] and [str.format] belong to Python's library;
    the program only chooses their arguments. *)
Class PyLib : Type := {
  (** [datetime.fromtimestamp(ts).astimezone(ZoneInfo(tz)).strftime(fmt)] *)
  strftime_in_zone : Z → string → string → string;
  (** [datetime.fromisoformat(s).astimezone(ZoneInfo(tz)).strftime(fmt)] *)
  iso_strftime_in_zone : val → string → string → string;
  (** [template.format(a, b)] with the arguments listed *)
  str_format : string → list string → string
}.

Section Reporter.
Context `{PyLib}.

Definition time_from_timestamp (timestamp : Z) (time_format timezone : string)
    : string :=
  strftime_in_zone timestamp timezone time_format.

Definition time_from_iso_format (date_time : val) (time_format timezone : string)
    : string :=
  iso_strftime_in_zone date_time timezone time_format.

(** ** Report compositor *)

(** [status_translations.get(k, k)], rendered. *)
Definition translate (tr : gmap string string) (k : val) : string :=
  match k with
  | VStr s => default s (tr !! s)
  | _ => py_str k
  end.

Definition gen_message_stats_html (cfg : config) (message_stats : list (val * Z))
    : string :=
  let status_translations := cfg_status_translations cfg in
  fold_left
    (λ html '(status, count),
       let header := translate status_translations status in
       html +:+ "<tr><td style=" +:+ dquote +:+ "width:200px;" +:+ dquote +:+ ">"
            +:+ header +:+ "</td><td>" +:+ pretty count +:+ "</td></tr>")
    message_stats "<table>"
  +:+ "</table>".

(** One [<td>] of a detail row: [message[field]] fails on a missing key. *)
Definition gen_cell (subaccount_time_format timezone : string) (message : record)
    (html : string) (fs : string * string) : M string :=
  let '(field, style) := fs in
  v <- getitem field (message !! field) ;;
  let content :=
    if decide (field = "date_time")
    then time_from_iso_format v subaccount_time_format timezone
    else py_str v in
  ret (html +:+ "<td " +:+ style +:+ ">" +:+ content +:+ "</td>").

Definition gen_row (subaccount_time_format timezone : string) (html : string)
    (message : record) : M string :=
  html <- for_each (gen_cell subaccount_time_format timezone message)
            REPORT_DETAILS_FIELDS (html +:+ "<tr>") ;;
  ret (html +:+ "</tr>").

Definition gen_state_table (tr : gmap string string)
    (subaccount_time_format timezone : string) (html : string)
    (entry : val * list record) : M string :=
  let '(state, status_messages) := entry in
  let html := html +:+ "<h4>" +:+ translate tr state +:+ ":</h4>" in
  let html := html +:+ "<table><tr>" in
  let html :=
    fold_left (λ h fs, h +:+ "<th>" +:+ translate tr (VStr (fst fs)) +:+ "</th>")
      REPORT_DETAILS_FIELDS html in
  let html := html +:+ "</tr>" in
  html <- for_each (gen_row subaccount_time_format timezone) status_messages html ;;
  ret (html +:+ "</table>").

Definition gen_bounce_data_html (cfg : config) (subaccount_time_format : string)
    (message_details : list (val * list record)) : M string :=
  let status_translations := cfg_status_translations cfg in
  let timezone := default "Europe/Amsterdam" (gs_timezone (cfg_global_settings cfg)) in
  html <- for_each (gen_state_table status_translations subaccount_time_format timezone)
            message_details "" ;;
  ret (if decide (html = "") then "undefined" else html).

(** The row built from a raw record: the canonical name of each field of
    [MESSAGE_FIELDS] that the record has. *)
Definition detail_row (message : record) : record :=
  fold_left
    (λ row '(field, header),
       match message !! field with
       | Some v => <[header := v]> row
       | None => row
       end)
    MESSAGE_FIELDS ∅.

(** The body of the loop over the fetched records. *)
Definition count_message (report_details_fields : list val)
    (acc : list (val * list record) * list (val * Z)) (message : record)
    : M (list (val * list record) * list (val * Z)) :=
  let '(details, stats) := acc in
  message_status <- getitem "Status" (message !! "Status") ;;
  let details :=
    if decide (message_status ∈ report_details_fields)
    then alist_set message_status
           (default [] (alist_get message_status details) ++ [detail_row message])
           details
    else details in
  let stats :=
    alist_set message_status (default 0 (alist_get message_status stats) + 1) stats in
  ret (details, stats).

Definition process_messages (report_details_fields : list val)
    (data : list record) : M (list (val * list record) * list (val * Z)) :=
  for_each (count_message report_details_fields) data ([], []).

(** ** Report dispatcher *)

Definition send_report (cfg : config) (sa : subaccount)
    (message_stats : list (val * Z))
    (message_details : list (val * list record))
    (last_ts current_ts : Z) (auth : HTTPBasicAuth) : M bool :=
  let gs := cfg_global_settings cfg in
  let status_translations := cfg_status_translations cfg in
  pd <- getitem "profile_details" (sa_profile_details sa) ;;
  let skip_if_no_details :=
    default (default false (pr_skip_if_no_details pd)) (sa_skip_if_no_details sa) in
  pd <- getitem "profile_details" (sa_profile_details sa) ;;
  let skip_if_no_data :=
    default (default false (pr_skip_if_no_data pd)) (sa_skip_if_no_data sa) in
  if skip_if_no_details && is_empty message_details
     || skip_if_no_data && is_empty message_stats
  then ret false
  else
    let timezone := default "Europe/Amsterdam" (gs_timezone gs) in
    let report_time_format := default "%Y-%m-%d %H:%M:%S" (gs_time_format gs) in
    pd <- getitem "profile_details" (sa_profile_details sa) ;;
    let subaccount_time_format := default report_time_format (pr_time_format pd) in
    let subject_date_format := default "%Y-%m-%d" (gs_time_format gs) in
    profile_details <- getitem "profile_details" (sa_profile_details sa) ;;
    let delivery_stats_html :=
      if is_empty message_stats
      then default "No data" (status_translations !! "no_data")
      else gen_message_stats_html cfg message_stats in
    let subject_date := strftime_in_zone current_ts timezone subject_date_format in
    subject_template <- getitem "subject" (pr_subject profile_details) ;;
    name <- getitem "name" (sa_name sa) ;;
    let subject := str_format subject_template [name; subject_date] in
    from_email <- getitem "from_email" (pr_from_email profile_details) ;;
    from_name <- getitem "from_name" (pr_from_name profile_details) ;;
    recipients <- getitem "recipients" (sa_recipients sa) ;;
    to <- for_each
            (λ acc r,
               e <- getitem "to_email" (to_email r) ;;
               n <- getitem "to_name" (to_name r) ;;
               ret (acc ++ [{| Email := e; Name := n |}]))
            recipients [] ;;
    template_id <- getitem "template_id" (pr_template_id profile_details) ;;
    bounce_data_html <-
      gen_bounce_data_html cfg subaccount_time_format message_details ;;
    let start := time_from_timestamp last_ts report_time_format timezone in
    let stop := time_from_timestamp current_ts report_time_format timezone in
    name' <- getitem "name" (sa_name sa) ;;
    let message_body :=
      [{| From := {| Email := from_email; Name := from_name |};
          To := to;
          TemplateID := template_id;
          TemplateLanguage := true;
          Subject := subject;
          Variables :=
            {| delivery_stats := delivery_stats_html;
               bounce_data := bounce_data_html;
               rep_start := start;
               rep_end := stop;
               sub_account := name' |} |}] in
    let headers : gmap string string := {["Content-Type" := "application/json"]} in
    try_except
      (response <- requests_post MAILJET_MAIL_SEND_API auth headers message_body ;;
       if negb (fst response =? 200)
       then
         name <- getitem "name" (sa_name sa) ;;
         _LOGGER ERROR "Error sending report for subaccount %s: %s"
           [name; pretty (fst response)] ;;
         ret false
       else ret true)
      (λ e, match e with RequestException => true | _ => false end)
      (λ err,
         _LOGGER ERROR "Error fetching count from API %s: %s"
           [MAILJET_MAIL_SEND_API; exn_str err] ;;
         ret false).

End Reporter.

(** ** State store *)

(** [open(SYNC_STATE, "r")] and [json.load]: a missing file raises
    [FileNotFoundError], an undecodable one [JSONDecodeError]; the text
    [null] loads as [None]. *)
Definition read_state_file : M (option (gmap string Z)) :=
  λ w, match sync_file w with
       | None => (Raise FileNotFoundError, w)
       | Some t =>
           let w' := with_fs (sync_file w) (buffered w) Close
                       (with_fs (sync_file w) (buffered w) OpenRead w) in
           match t with
           | FileEmpty => (Raise JSONDecodeError, w')
           | FileNull => (Ret None, w')
           | FileDict m => (Ret (Some m), w')
           end
       end.

(** [json.dump(state, f)] writes [null] for [None]. *)
Definition json_of_state (state : option (gmap string Z)) : file_json :=
  match state with
  | None => FileNull
  | Some m => FileDict m
  end.

(** The steps of the final [with open(SYNC_STATE, "w")] block.  Opening
    for writing truncates the file; the dumped text sits in the file
    object's buffer until it is flushed. *)
Definition op_open_write (w : world) : world :=
  with_fs (Some FileEmpty) None OpenWrite w.
Definition op_json_dump (state : option (gmap string Z)) (w : world) : world :=
  with_fs (sync_file w) (Some (json_of_state state))
    (WriteText (json_of_state state)) w.
Definition op_flush (w : world) : world :=
  match buffered w with
  | Some t => with_fs (Some t) None Flush w
  | None => with_fs (sync_file w) None Flush w
  end.
Definition op_fsync (w : world) : world :=
  with_fs (sync_file w) (buffered w) Fsync w.
Definition op_close (w : world) : world :=
  match buffered w with
  | Some t => with_fs (Some t) None Close w
  | None => with_fs (sync_file w) None Close w
  end.

Definition write_state_ops (state : option (gmap string Z)) : list (world → world) :=
  [op_open_write; op_json_dump state; op_flush; op_fsync; op_close].

Definition run_ops (ops : list (world → world)) (w : world) : world :=
  fold_left (λ w op, op w) ops w.

Definition write_state (state : option (gmap string Z)) : M unit :=
  λ w, (Ret tt, run_ops (write_state_ops state) w).

(** ** Credential resolver *)

Record dir_entry : Type := { de_id : val; de_api_id : val; de_api_secret : val }.

Definition get_subaccount_data (fuel : nat) (auth : HTTPBasicAuth)
    : M (option (list (val * dir_entry))) :=
  subaccount_api_data <- get_mailjet_data_list fuel MAILJET_APIKEY_API auth None ;;
  match subaccount_api_data with
  | None => _LOGGER ERROR "Error fetching subaccount data" [] ;; ret None
  | Some l =>
      d <- for_each
             (λ acc (sub : record),
                n <- getitem "Name" (sub !! "Name") ;;
                i <- getitem "ID" (sub !! "ID") ;;
                k <- getitem "APIKey" (sub !! "APIKey") ;;
                s <- getitem "SecretKey" (sub !! "SecretKey") ;;
                ret (alist_set n {| de_id := i; de_api_id := k; de_api_secret := s |} acc))
             l [] ;;
      ret (Some d)
  end.

(** ** Sync orchestrator *)

(** What the process finds when it starts: the environment variables, the
    configuration file ([None]: no such file; [Some None]: an empty
    document), and the clock. *)
Record host : Type := {
  MAILJET_APP_ID : option string;
  MAILJET_APP_SECRET : option string;
  CONFIG_FILE : option string;
  SYNC_STATE : option string;
  config_file : option (option config);
  isoweekday : Z;
  time : Z
}.

Definition set_profile_valid (p : profile) : profile :=
  {| pr_template_id := pr_template_id p; pr_subject := pr_subject p;
     pr_from_email := pr_from_email p; pr_from_name := pr_from_name p;
     pr_time_format := pr_time_format p;
     pr_report_in_detail := pr_report_in_detail p;
     pr_skip_if_no_details := pr_skip_if_no_details p;
     pr_skip_if_no_data := pr_skip_if_no_data p;
     pr_valid := Some true |}.

(** [subaccount["profile_details"] = p; subaccount["report_days"] = days]. *)
Definition set_profile_details (p : profile) (days : string) (sa : subaccount)
    : subaccount :=
  {| sa_name := sa_name sa; sa_profile := sa_profile sa;
     sa_report_days := Some days;
     sa_skip_if_no_details := sa_skip_if_no_details sa;
     sa_skip_if_no_data := sa_skip_if_no_data sa;
     sa_recipients := sa_recipients sa;
     sa_profile_details := Some p;
     sa_valid := sa_valid sa |}.

Definition set_subaccount_valid (sa : subaccount) : subaccount :=
  {| sa_name := sa_name sa; sa_profile := sa_profile sa;
     sa_report_days := sa_report_days sa;
     sa_skip_if_no_details := sa_skip_if_no_details sa;
     sa_skip_if_no_data := sa_skip_if_no_data sa;
     sa_recipients := sa_recipients sa;
     sa_profile_details := sa_profile_details sa;
     sa_valid := Some true |}.

(** The body of the loop over [profiles.items()]; the dictionary is
    rebuilt in order with the profile as the loop leaves it. *)
Definition validate_profile (acc : list (string * profile))
    (entry : string * profile) : M (list (string * profile)) :=
  let '(profile_name, p) := entry in
  if bool_decide (pr_template_id p = None) then
    _LOGGER ERROR "Profile %s does not have a template_id, skipping" [profile_name] ;;
    ret (acc ++ [entry])
  else if bool_decide (pr_subject p = None) then
    _LOGGER ERROR "Profile %s does not have a subject set, skipping" [profile_name] ;;
    ret (acc ++ [entry])
  else if bool_decide (pr_from_email p = None) then
    _LOGGER ERROR "Profile %s does not have a from_email, skipping" [profile_name] ;;
    ret (acc ++ [entry])
  else if bool_decide (pr_from_name p = None) then
    _LOGGER ERROR "Profile %s does not have a from_name, skipping" [profile_name] ;;
    ret (acc ++ [entry])
  else ret (acc ++ [(profile_name, set_profile_valid p)]).

Definition check_recipient (name : string) (invalid_recipient : bool)
    (r : recipient) : M bool :=
  if bool_decide (to_email r = None) || bool_decide (to_name r = None) then
    _LOGGER ERROR
      "Subaccount %s recipients has not defined to_email or to_name correctly, skipping"
      [name] ;;
    ret true
  else ret invalid_recipient.

(** The body of the validation loop over [subaccount_reports]. *)
Definition validate_subaccount (profiles : list (string * profile))
    (report_days_default : string) (acc : list subaccount) (sa : subaccount)
    : M (list subaccount) :=
  match sa_name sa with
  | None =>
      _LOGGER ERROR
        "Subaccount name not found in subaccount report config, skipping" [] ;;
      ret (acc ++ [sa])
  | Some name =>
      match sa_profile sa with
      | None =>
          _LOGGER ERROR
            "Subaccount '%s' does not have a profile assigned, skipping" [name] ;;
          ret (acc ++ [sa])
      | Some pname =>
          match alist_get pname profiles with
          | None =>
              _LOGGER ERROR
                "Assigned profile '%s' for subaccount '%s' does not exist, skipping"
                [pname; name] ;;
              ret (acc ++ [sa])
          | Some p =>
              if negb (default false (pr_valid p)) then
                _LOGGER ERROR
                  "Subaccount type %s not found in profiles, skipping" [name] ;;
                ret (acc ++ [sa])
              else
                let sa :=
                  set_profile_details p
                    (default report_days_default (sa_report_days sa)) sa in
                match sa_recipients sa with
                | None =>
                    _LOGGER ERROR
                      "Subaccount %s does not have recipients, skipping" [name] ;;
                    ret (acc ++ [sa])
                | Some rs =>
                    invalid_recipient <- for_each (check_recipient name) rs false ;;
                    if invalid_recipient then ret (acc ++ [sa])
                    else ret (acc ++ [set_subaccount_valid sa])
                end
          end
      end
  end.

Section Orchestrator.
Context `{PyLib}.

(** What one pass of the processing loop has ready when it reaches
    [send_report]. *)
Record job : Type := {
  job_id : string;
  job_last_ts : Z;
  job_stats : list (val * Z);
  job_details : list (val * list record)
}.

(** The processing loop's body up to the aggregation (the part before
    [send_report]); [None] stands for [continue]. *)
Definition gather_report (fuel : nat) (profiles : list (string * profile))
    (subaccount_data : list (val * dir_entry)) (day_of_week : string)
    (current_ts default_last_ts : Z) (state : option (gmap string Z))
    (sa : subaccount) : M (option job) :=
  if negb (default false (sa_valid sa)) then
    name <- getitem "name" (sa_name sa) ;;
    _LOGGER WARNING "Subaccount %s not valid, skipping" [name] ;;
    ret None
  else
    report_days <- getitem "report_days" (sa_report_days sa) ;;
    if negb (str_in day_of_week report_days) then
      name <- getitem "name" (sa_name sa) ;;
      _LOGGER DEBUG
        "Subaccount report %s not scheduled to report today, skipping" [name] ;;
      ret None
    else
      name <- getitem "name" (sa_name sa) ;;
      match alist_get (VStr name) subaccount_data with
      | None =>
          _LOGGER ERROR "Subaccount %s not found in Mailjet, skipping" [name] ;;
          ret None
      | Some entry =>
          let api_id := de_api_id entry in
          let api_secret := de_api_secret entry in
          let subaccount_id := py_str (de_id entry) in
          let auth := {| username := api_id; password := api_secret |} in
          last_ts <-
            match state with
            | None => raise AttributeError
            | Some m => ret (default default_last_ts (m !! subaccount_id))
            end ;;
          pname <- getitem "profile" (sa_profile sa) ;;
          p <- getitem pname (alist_get pname profiles) ;;
          let report_details_fields := default [] (pr_report_in_detail p) in
          subaccount_message_data <-
            get_mailjet_data_list fuel MAILJET_MESSAGE_API auth
              (Some (<["FromTS" := VInt last_ts]>
                       (<["ToTS" := VInt current_ts]>
                          (<["ShowSubject" := VBool true]>
                             {["ShowContactAlt" := VBool true]})))) ;;
          match subaccount_message_data with
          | None =>
              _LOGGER ERROR
                "Error fetching message data for subaccount %s, skipping" [name] ;;
              ret None
          | Some data =>
              agg <- process_messages report_details_fields data ;;
              ret (Some {| job_id := subaccount_id; job_last_ts := last_ts;
                           job_stats := snd agg; job_details := fst agg |})
          end
      end.

(** The whole body of the processing loop: the state it leaves. *)
Definition process_subaccount (fuel : nat) (cfg : config)
    (profiles : list (string * profile))
    (subaccount_data : list (val * dir_entry)) (day_of_week : string)
    (current_ts default_last_ts : Z) (master_auth : HTTPBasicAuth)
    (state : option (gmap string Z)) (sa : subaccount)
    : M (option (gmap string Z)) :=
  j <- gather_report fuel profiles subaccount_data day_of_week current_ts
         default_last_ts state sa ;;
  match j with
  | None => ret state
  | Some j =>
      sent <- send_report cfg sa (job_stats j) (job_details j) (job_last_ts j)
                current_ts master_auth ;;
      if negb sent then ret state
      else
        match state with
        | None => raise TypeError
        | Some m => ret (Some (<[job_id j := current_ts]> m))
        end
  end.

(** What [main] has in hand when the processing loop starts. *)
Record run_env : Type := {
  re_cfg : config;
  re_profiles : list (string * profile);
  re_subaccount_reports : list subaccount;
  re_subaccount_data : list (val * dir_entry);
  re_day_of_week : string;
  re_current_ts : Z;
  re_default_last_ts : Z;
  re_master_auth : HTTPBasicAuth;
  re_state : option (gmap string Z)
}.

(** [main] from its first line to the directory fetch. *)
Definition startup (fuel : nat) (h : host) : M run_env :=
  let day_of_week := pretty (isoweekday h) in
  creds <-
    match MAILJET_APP_ID h, MAILJET_APP_SECRET h with
    | Some i, Some s => ret (i, s)
    | _, _ =>
        _LOGGER ERROR "MAILJET_APP_ID or MAILJET_APP_SECRET is not set" [] ;;
        raise (SystemExit 1)
    end ;;
  paths <-
    match CONFIG_FILE h, SYNC_STATE h with
    | Some c, Some s => ret (c, s)
    | _, _ =>
        _LOGGER ERROR "CONFIG_FILE or SYNC_STATE is not set" [] ;;
        raise (SystemExit 1)
    end ;;
  cfg <-
    match config_file h with
    | Some (Some cfg) => ret cfg
    | Some None =>
        _LOGGER ERROR "Config file is empty, aborting" [] ;;
        raise (SystemExit 1)
    | None =>
        _LOGGER ERROR "Config file %s not found, aborting" [fst paths] ;;
        raise (SystemExit 1)
    end ;;
  let gs := cfg_global_settings cfg in
  let report_days_default := default "01234" (gs_report_days gs) in
  let default_max_report_days := default 1 (gs_default_max_report_days gs) in
  state <-
    try_except
      (state <- read_state_file ;;
       match state with
       | None =>
           _LOGGER INFO "State file is empty, reporting over the last %s days"
             [pretty default_max_report_days]
       | Some _ => ret tt
       end ;;
       ret state)
      (λ e, match e with FileNotFoundError => true | _ => false end)
      (λ _,
         _LOGGER DEBUG "State file %s not found, creating initial file" [snd paths] ;;
         ret (Some ∅)) ;;
  let profiles := cfg_profiles cfg in
  (if is_empty profiles then
     _LOGGER ERROR "No profiles found in config file" [] ;;
     raise (SystemExit 1)
   else ret tt) ;;
  let current_ts := time h in
  let default_last_ts := current_ts - 86400 * default_max_report_days in
  profiles <- for_each validate_profile profiles [] ;;
  let subaccount_reports := cfg_subaccount_reports cfg in
  (if is_empty subaccount_reports then
     _LOGGER INFO "No subaccount reports found in config file, nothing to report" [] ;;
     raise (SystemExit 1)
   else ret tt) ;;
  subaccount_reports <-
    for_each (validate_subaccount profiles report_days_default)
      subaccount_reports [] ;;
  let master_auth := {| username := VStr (fst creds); password := VStr (snd creds) |} in
  d <- get_subaccount_data fuel master_auth ;;
  subaccount_data <-
    match d with
    | None =>
        _LOGGER ERROR "Error fetching subaccounts, aborting" [] ;;
        raise (SystemExit 1)
    | Some d => ret d
    end ;;
  ret {| re_cfg := cfg; re_profiles := profiles;
         re_subaccount_reports := subaccount_reports;
         re_subaccount_data := subaccount_data;
         re_day_of_week := day_of_week;
         re_current_ts := current_ts;
         re_default_last_ts := default_last_ts;
         re_master_auth := master_auth;
         re_state := state |}.

(** The processing loop over the validated subaccounts. *)
Definition process_reports (fuel : nat) (e : run_env) (sas : list subaccount)
    (state : option (gmap string Z)) : M (option (gmap string Z)) :=
  for_each
    (process_subaccount fuel (re_cfg e) (re_profiles e) (re_subaccount_data e)
       (re_day_of_week e) (re_current_ts e) (re_default_last_ts e)
       (re_master_auth e))
    sas state.

(** [main] up to the end of the processing loop: the in-memory state. *)
Definition run_reports (fuel : nat) (h : host) : M (option (gmap string Z)) :=
  e <- startup fuel h ;;
  process_reports fuel e (re_subaccount_reports e) (re_state e).

(** [main]: the run, then the one write of the state file. *)
Definition main (fuel : nat) (h : host) : M unit :=
  state <- run_reports fuel h ;;
  write_state state.

End Orchestrator.

(** ** Vocabulary of the statements *)

Definition with_calls (cs : list call) (w : world) : world :=
  {| remote := remote w; calls := calls w ++ cs; logged := logged w;
     sync_file := sync_file w; buffered := buffered w;
     fs_events := fs_events w |}.

(** The count probe and the page request of the fetcher. *)
Definition probe_call (api : string) (auth : HTTPBasicAuth)
    (params : gmap string val) : call :=
  Get api auth (params ∪ {["countOnly" := VInt 1]}).

Definition page_call (api : string) (auth : HTTPBasicAuth)
    (params : gmap string val) (offset : nat) : call :=
  Get api auth
    (params ∪ <["Limit" := VInt 200]> {["Offset" := VInt (Z.of_nat offset)]}).

(** The page of at most [limit] records that starts at [offset]. *)
Definition page_of (recs : list record) (limit offset : nat) : content :=
  let rows := take limit (drop offset recs) in
  Body (Some (Z.of_nat (length rows))) (Some rows).

(** A provider that holds the records [recs] behind [api] and answers the
    list endpoint as a counted, offset-paginated endpoint does: the probe
    with the total, a page request with the page and its size. *)
Definition serves (srv : list call → call → reply) (api : string)
    (auth : HTTPBasicAuth) (params : gmap string val) (recs : list record)
    : Prop :=
  (∀ hist, ∃ d,
     srv hist (probe_call api auth params) =
       Response 200 (Body (Some (Z.of_nat (length recs))) d)) ∧
  (∀ hist offset,
     srv hist (page_call api auth params offset) =
       Response 200 (page_of recs 200 offset)).

(** How many page requests a listing of [n] records takes. *)
Definition num_pages (n : nat) : nat :=
  if (n =? 0)%nat then 1%nat else ((n + 199) / 200)%nat.

Definition page_offsets (n : nat) : list nat :=
  (λ i, i * 200)%nat <$> seq 0 (num_pages n).

(** ** Sample inputs *)

(** A provider holding [recs]: it answers every count probe with the
    total, every page request with the page asked for, and accepts every
    message sent. *)
Definition paged_server (recs : list record) : list call → call → reply :=
  λ _ c,
    match c with
    | Get _ _ q =>
        match q !! "countOnly" with
        | Some _ => Response 200 (Body (Some (Z.of_nat (length recs))) (Some []))
        | None =>
            match q !! "Limit", q !! "Offset" with
            | Some (VInt l), Some (VInt o) =>
                Response 200 (page_of recs (Z.to_nat l) (Z.to_nat o))
            | _, _ => Response 400 Garbage
            end
        end
    | Post _ _ _ _ => Response 200 (Body None None)
    end.

(** A provider whose count probe overstates: it reports [extra] records
    more than the [recs] its pages hold. *)
Definition overcounting_server (recs : list record) (extra : nat)
    : list call → call → reply :=
  λ hist c,
    match c with
    | Get _ _ q =>
        match q !! "countOnly" with
        | Some _ =>
            Response 200 (Body (Some (Z.of_nat (length recs + extra))) (Some []))
        | None => paged_server recs hist c
        end
    | Post _ _ _ _ => paged_server recs hist c
    end.

Definition world_of (srv : list call → call → reply) (f : option file_json)
    : world :=
  {| remote := srv; calls := []; logged := []; sync_file := f;
     buffered := None; fs_events := [] |}.

Definition sample_auth : HTTPBasicAuth :=
  {| username := VStr "key"; password := VStr "secret" |}.

(** [n] records, told apart by their [ID]. *)
Definition numbered (n : nat) : list record :=
  (λ i, {["ID" := VInt (Z.of_nat i)]}) <$> seq 0 n.

(** A provider with the API keys [keys] in its directory and the message
    events [messages] on every subaccount; [send] is its answer to a
    message sent. *)
Definition provider (keys messages : list record) (send : reply)
    : list call → call → reply :=
  λ hist c,
    match c with
    | Get api _ _ =>
        if decide (api = MAILJET_APIKEY_API)
        then paged_server keys hist c
        else paged_server messages hist c
    | Post _ _ _ _ => send
    end.

(** The same provider, except that the pages of the message listing get
    the answer [page]: the count probe still succeeds. *)
Definition provider_failing_pages (keys messages : list record) (page : reply)
    : list call → call → reply :=
  λ hist c,
    match c with
    | Get api _ q =>
        if decide (api = MAILJET_APIKEY_API) then paged_server keys hist c
        else match q !! "countOnly" with
             | Some _ => paged_server messages hist c
             | None => page
             end
    | Post _ _ _ _ => Response 200 (Body None None)
    end.

Definition sample_lib : PyLib :=
  {| strftime_in_zone ts tz fmt := pretty ts +:+ " " +:+ tz +:+ " " +:+ fmt;
     iso_strftime_in_zone v tz fmt := py_str v +:+ " " +:+ tz +:+ " " +:+ fmt;
     str_format template a := template +:+ " " +:+ String.concat " " a |}.

Definition sample_profile : profile :=
  {| pr_template_id := Some (VInt 42);
     pr_subject := Some "Report {} {}";
     pr_from_email := Some "noreply@example.org";
     pr_from_name := Some "Reporter";
     pr_time_format := None;
     pr_report_in_detail := Some [VStr "bounce"];
     pr_skip_if_no_details := None;
     pr_skip_if_no_data := None;
     pr_valid := None |}.

Definition sample_subaccount (name : option string) : subaccount :=
  {| sa_name := name;
     sa_profile := Some "default";
     sa_report_days := Some "1234567";
     sa_skip_if_no_details := None;
     sa_skip_if_no_data := None;
     sa_recipients :=
       Some [{| to_email := Some "ops@example.org"; to_name := Some "Ops" |}];
     sa_profile_details := None;
     sa_valid := None |}.

Definition no_settings : global_settings :=
  {| gs_timezone := None; gs_time_format := None; gs_report_days := None;
     gs_default_max_report_days := None |}.

Definition sample_config (sas : list subaccount) : config :=
  {| cfg_global_settings := no_settings;
     cfg_status_translations := ∅;
     cfg_profiles := [("default", sample_profile)];
     cfg_subaccount_reports := sas |}.

Definition sample_host (cfg : config) (now : Z) : host :=
  {| MAILJET_APP_ID := Some "master";
     MAILJET_APP_SECRET := Some "secret";
     CONFIG_FILE := Some "config.yaml";
     SYNC_STATE := Some "state.json";
     config_file := Some (Some cfg);
     isoweekday := 2;
     time := now |}.

(** The directory entry of the subaccount ["alpha"], whose id is 7. *)
Definition sample_keys : list record :=
  [ <["Name" := VStr "alpha"]>
      (<["ID" := VInt 7]>
         (<["APIKey" := VStr "k"]> {["SecretKey" := VStr "s"]})) ].

Definition bounce_event : record :=
  <["ID" := VInt 1]>
    (<["ArrivedAt" := VStr "2024-05-01T10:00:00Z"]>
       (<["ContactAlt" := VStr "someone@example.org"]>
          (<["Status" := VStr "bounce"]> {["Subject" := VStr "Hello"]}))).

(** ** Vocabulary of the watermark statements *)


Section Delivery.
Context `{PyLib}.



End Delivery.

(** ** Vocabulary of the state-file statements *)

Definition is_read (e : fs_event) : Prop := e = OpenRead ∨ e = Close.

(** From [w] to [w'] the state file was at most read: same content, same
    buffer, and only read events added. *)
Definition reads_only (w w' : world) : Prop :=
  sync_file w' = sync_file w ∧ buffered w' = buffered w ∧
  ∃ es, fs_events w' = fs_events w ++ es ∧ Forall is_read es.

Definition readonly {A} (m : M A) : Prop := ∀ w, reads_only w (snd (m w)).

(** The write of the state file, read as atomic: wherever the final block
    is interrupted, the file holds either what it held before or the new
    state. *)
Definition state_write_is_atomic : Prop :=
  ∀ (state : option (gmap string Z)) (w : world) (k : nat),
    let w' := run_ops (take k (write_state_ops state)) w in
    sync_file w' = sync_file w ∨ sync_file w' = Some (json_of_state state).

(** ** Vocabulary of the report statements *)


(** The fetched records whose status is [s], in order. *)
Definition with_status (s : val) (data : list record) : list record :=
  filter (λ r, r !! "Status" = Some s) data.

(** A detail row that the details table cannot render. *)
Definition lacks_detail_field (row : record) : Prop :=
  row !! "date_time" = None ∨ row !! "contact" = None ∨ row !! "subject" = None.

(** [strftime] directives that print a time of day or a zone. *)
Definition is_time_directive (c : Ascii.ascii) : bool :=
  bool_decide (c ∈ String.list_ascii_of_string "HIMSpfzZXcTRr").

(** A format with no time-of-day directive. *)
Fixpoint is_date_only_format (fmt : string) : bool :=
  match fmt with
  | EmptyString => true
  | String c rest =>
      match rest with
      | EmptyString => true
      | String d _ =>
          negb (bool_decide (c = "%"%char) && is_time_directive d)
          && is_date_only_format rest
      end
  end.

Section SubjectDate.
Context `{PyLib}.

(** The subject date of the specification: every message that
    [send_report] posts carries a subject date in a date-only format. *)
Definition subject_date_is_date_only : Prop :=
  ∀ cfg sa stats details last_ts current_ts auth w api a hs msg,
    Post api a hs [msg]
      ∈ calls (snd (send_report cfg sa stats details last_ts current_ts auth w)) →
    Post api a hs [msg] ∉ calls w →
    ∃ pd template name fmt,
      sa_profile_details sa = Some pd ∧ pr_subject pd = Some template ∧
      sa_name sa = Some name ∧ is_date_only_format fmt = true ∧
      Subject msg =
        str_format template
          [name;
           strftime_in_zone current_ts
             (default "Europe/Amsterdam" (gs_timezone (cfg_global_settings cfg)))
             fmt].

End SubjectDate.

(** A configuration whose global [time_format] is a time of day. *)
Definition clock_config : config :=
  {| cfg_global_settings :=
       {| gs_timezone := None; gs_time_format := Some "%H:%M";
          gs_report_days := None; gs_default_max_report_days := None |};
     cfg_status_translations := ∅;
     cfg_profiles := [("default", sample_profile)];
     cfg_subaccount_reports := [sample_subaccount (Some "alpha")] |}.

(** The subaccount ["alpha"] as the validation leaves it. *)
Definition valid_alpha : subaccount :=
  set_subaccount_valid
    (set_profile_details (set_profile_valid sample_profile) "1234567"
       (sample_subaccount (Some "alpha"))).


(** ** Vocabulary of the proofs *)

(** What the loop adds to a count and to a list of rows. *)
Definition add_count (o : option Z) (n : nat) : option Z :=
  match n with
  | O => o
  | S _ => Some (default 0 o + Z.of_nat n)
  end.

Definition add_rows (o : option (list record)) (rows : list record)
    : option (list record) :=
  match rows with
  | [] => o
  | _ => Some (default [] o ++ rows)
  end.

(** The key errors of the details table. *)
Definition detail_key_error (e : exn) : Prop :=
  ∃ k, k ∈ ["date_time"; "contact"; "subject"] ∧ e = KeyError k.

Definition key_error (e : exn) : Prop := ∃ k, e = KeyError k.

(** Whether the provider accepted a message. *)
Definition accepted (r : reply) : bool :=
  match r with
  | Response code _ => code =? 200
  | ConnectionFailed => false
  end.

(** The state a run starts from, read off the state file: a missing file
    is the empty mapping, [null] (or an unreadable text) is no mapping. *)
Definition loaded_state (f : option file_json) : option (gmap string Z) :=
  match f with
  | None => Some ∅
  | Some (FileDict m) => Some m
  | Some _ => None
  end.


(** ** Vocabulary of the further statements *)

(** A provider that cannot be reached. *)
Definition unreachable : list call → call → reply := λ _ _, ConnectionFailed.

(** The provider [srv] with every status code replaced by [f] of it. *)
Definition recode (f : Z → Z) (srv : list call → call → reply)
    : list call → call → reply :=
  λ hist c,
    match srv hist c with
    | Response code body => Response (f code) body
    | ConnectionFailed => ConnectionFailed
    end.

Definition set_remote (srv : list call → call → reply) (w : world) : world :=
  {| remote := srv; calls := calls w; logged := logged w;
     sync_file := sync_file w; buffered := buffered w;
     fs_events := fs_events w |}.

(** The directory entry that a record of the key listing gives. *)
Definition entry_of (r : record) : option dir_entry :=
  match r !! "ID", r !! "APIKey", r !! "SecretKey" with
  | Some i, Some k, Some s =>
      Some {| de_id := i; de_api_id := k; de_api_secret := s |}
  | _, _, _ => None
  end.

(** A record of the key listing with the four keys the resolver reads. *)
Definition key_record (r : record) : Prop :=
  is_Some (r !! "Name") ∧ is_Some (r !! "ID") ∧
  is_Some (r !! "APIKey") ∧ is_Some (r !! "SecretKey").

(** A record of the key listing without its [ID]. *)
Definition key_without_id : record :=
  <["Name" := VStr "alpha"]>
    (<["APIKey" := VStr "k"]> {["SecretKey" := VStr "s"]}).

(** A profile with the four keys the profile validation asks for. *)
Definition profile_complete (p : profile) : Prop :=
  is_Some (pr_template_id p) ∧ is_Some (pr_subject p) ∧
  is_Some (pr_from_email p) ∧ is_Some (pr_from_name p).

Global Instance profile_complete_dec p : Decision (profile_complete p).
Proof. unfold profile_complete. apply _. Defined.

(** The profile as the profile validation leaves it. *)
Definition validated_profile (p : profile) : profile :=
  if decide (profile_complete p) then set_profile_valid p else p.

Definition recipient_complete (r : recipient) : Prop :=
  is_Some (to_email r) ∧ is_Some (to_name r).

Global Instance recipient_complete_dec r : Decision (recipient_complete r).
Proof. unfold recipient_complete. apply _. Defined.

(** What the validation loop asks of an entry of [subaccount_reports]. *)
Definition validatable (ps : list (string * profile)) (sa : subaccount) : Prop :=
  ∃ name pname p rs,
    sa_name sa = Some name ∧ sa_profile sa = Some pname ∧
    alist_get pname ps = Some p ∧ default false (pr_valid p) = true ∧
    sa_recipients sa = Some rs ∧ Forall recipient_complete rs.

(** What the processing loop and the dispatcher read from an entry:
    its name, its schedule, its recipients and its profile's details. *)
Definition ready (sa : subaccount) : Prop :=
  ∃ name pname p days rs,
    sa_name sa = Some name ∧ sa_profile sa = Some pname ∧
    sa_profile_details sa = Some p ∧ profile_complete p ∧
    sa_report_days sa = Some days ∧
    sa_recipients sa = Some rs ∧ Forall recipient_complete rs.



(** Every request that [m] makes satisfies [Q]. *)
Definition emits {A} (Q : call → Prop) (m : M A) : Prop :=
  ∀ w, ∃ cs, calls (snd (m w)) = calls w ++ cs ∧ Forall Q cs.

(** The master credentials of a run. *)
Definition master_of (h : host) : option HTTPBasicAuth :=
  match MAILJET_APP_ID h, MAILJET_APP_SECRET h with
  | Some i, Some s => Some {| username := VStr i; password := VStr s |}
  | _, _ => None
  end.

(** The requests a run may make: listings of the key directory with the
    master credentials, listings of messages, and messages posted to the
    send endpoint with the master credentials. *)
Definition run_call (h : host) (c : call) : Prop :=
  match c with
  | Get api a _ =>
      (api = MAILJET_APIKEY_API ∧ master_of h = Some a) ∨ api = MAILJET_MESSAGE_API
  | Post api a hs ms =>
      api = MAILJET_MAIL_SEND_API ∧ master_of h = Some a ∧
      hs = {["Content-Type" := "application/json"]} ∧ length ms = 1%nat
  end.

(** The sum of the counts of a statistics table and the number of rows
    of a details table. *)
Definition total_count (stats : list (val * Z)) : Z :=
  foldr (λ kv acc, kv.2 + acc) 0 stats.

Definition total_rows (details : list (val * list record)) : nat :=
  foldr (λ kv acc, (length kv.2 + acc)%nat) 0%nat details.

(** A record whose status is one of the itemised ones. *)
Definition itemized (fields : list val) (r : record) : Prop :=
  ∃ s, r !! "Status" = Some s ∧ s ∈ fields.

Global Instance itemized_dec fields r : Decision (itemized fields r).
Proof.
  unfold itemized. destruct (r !! "Status") as [s|].
  - destruct (decide (s ∈ fields)) as [Hin|Hout].
    + left. by exists s.
    + right. by intros (? & [= <-] & ?).
  - right. by intros (? & [=] & _).
Defined.

(** An entry that the processing loop passes over before it asks the
    provider anything: one that the validation left invalid, one that is
    not scheduled for today, or one whose name the key directory lacks. *)
Definition passed_over (dir : list (val * dir_entry)) (day : string)
    (sa : subaccount) : Prop :=
  ∃ name, sa_name sa = Some name ∧
    (default false (sa_valid sa) = false
     ∨ ∃ days, default false (sa_valid sa) = true ∧
               sa_report_days sa = Some days ∧
               (str_in day days = false ∨ alist_get (VStr name) dir = None)).

(** An entry that reaches the message listing: valid, scheduled for
    [day], in the directory under its name as [entry], with the profile
    [p]. *)
Definition due (ps : list (string * profile)) (dir : list (val * dir_entry))
    (day : string) (sa : subaccount) (name : string) (entry : dir_entry)
    (p : profile) : Prop :=
  ∃ days pname,
    default false (sa_valid sa) = true ∧
    sa_report_days sa = Some days ∧ str_in day days = true ∧
    sa_name sa = Some name ∧ alist_get (VStr name) dir = Some entry ∧
    sa_profile sa = Some pname ∧ alist_get pname ps = Some p.

(** The query of the message listing for the window [from, to]. *)
Definition window_query (from to : Z) : gmap string val :=
  <["FromTS" := VInt from]>
    (<["ToTS" := VInt to]>
       (<["ShowSubject" := VBool true]> {["ShowContactAlt" := VBool true]})).

Definition entry_auth (entry : dir_entry) : HTTPBasicAuth :=
  {| username := de_api_id entry; password := de_api_secret entry |}.

(** A probe reply that the fetcher takes as a failure. *)
Definition probe_fails (r : reply) : Prop :=
  match r with
  | ConnectionFailed | Response _ Garbage | Response _ (Body None _) => True
  | Response _ (Body (Some _) _) => False
  end.

(** The directory entry of ["alpha"] and the directory that holds it. *)
Definition alpha_entry : dir_entry :=
  {| de_id := VInt 7; de_api_id := VStr "k"; de_api_secret := VStr "s" |}.

Definition sample_directory : list (val * dir_entry) :=
  [(VStr "alpha", alpha_entry)].



(** [m] neither talks to the provider nor changes the state file. *)
Definition offline {A} (m : M A) : Prop :=
  ∀ w, remote (snd (m w)) = remote w ∧ calls (snd (m w)) = calls w ∧
       sync_file (snd (m w)) = sync_file w.

(** The environment and the configuration file give all that [main]
    reads before it validates the configuration [cfg]. *)
Definition well_configured (h : host) (cfg : config) : Prop :=
  is_Some (MAILJET_APP_ID h) ∧ is_Some (MAILJET_APP_SECRET h) ∧
  is_Some (CONFIG_FILE h) ∧ is_Some (SYNC_STATE h) ∧
  config_file h = Some (Some cfg).

Definition is_post (c : call) : bool :=
  match c with Post _ _ _ _ => true | Get _ _ _ => false end.

(** A host whose environment lacks the master key. *)
Definition host_without_key : host :=
  {| MAILJET_APP_ID := None;
     MAILJET_APP_SECRET := Some "secret";
     CONFIG_FILE := Some "config.yaml";
     SYNC_STATE := Some "state.json";
     config_file := Some (Some (sample_config []));
     isoweekday := 2;
     time := 1000 |}.

Definition sample_master : HTTPBasicAuth :=
  {| username := VStr "master"; password := VStr "secret" |}.

(** * Properties *)

(** ** Monad and world bookkeeping *)

Lemma with_calls_app cs1 cs2 w :
  with_calls cs2 (with_calls cs1 w) = with_calls (cs1 ++ cs2) w.
Proof. unfold with_calls; simpl. by rewrite <- app_assoc. Qed.

Lemma requests_get_response api auth q w code body :
  remote w (calls w) (Get api auth q) = Response code body →
  requests_get api auth q w = (Ret (code, body), with_calls [Get api auth q] w).
Proof. intros E. unfold requests_get. by rewrite E. Qed.

Lemma for_each_cons {A S} (body : S → A → M S) a l s w :
  for_each body (a :: l) s w =
    match body s a w with
    | (Ret s', w') => for_each body l s' w'
    | (Raise e, w') => (Raise e, w')
    | (OutOfFuel, w') => (OutOfFuel, w')
    end.
Proof. reflexivity. Qed.

(** ** Pagination *)

Lemma num_pages_last r : (r ≤ 200)%nat → num_pages r = 1%nat.
Proof.
  intros Hr. unfold num_pages. destruct (Nat.eqb_spec r 0) as [|Hne]; [done|].
  assert (200 * 1 ≤ r + 199 < 200 * 2)%nat as Hb by lia.
  symmetry. apply (Nat.div_unique (r + 199) 200 1 (r + 199 - 200)); lia.
Qed.

Lemma num_pages_more r : (200 < r)%nat → num_pages r = S (num_pages (r - 200)).
Proof.
  intros Hr. unfold num_pages.
  destruct (Nat.eqb_spec r 0) as [|_]; [lia|].
  destruct (Nat.eqb_spec (r - 200) 0) as [|_]; [lia|].
  replace (r + 199)%nat with ((r - 200 + 199) + 1 * 200)%nat by lia.
  rewrite Nat.div_add by lia. lia.
Qed.

Lemma num_pages_pos r : (1 ≤ num_pages r)%nat.
Proof.
  unfold num_pages. destruct (Nat.eqb_spec r 0) as [|Hne]; [done|].
  apply Nat.div_le_lower_bound; lia.
Qed.

Lemma fetch_pages_serves api auth params recs fuel :
  ∀ (o : nat) (w : world),
    serves (remote w) api auth params recs →
    (o ≤ length recs)%nat →
    (num_pages (length recs - o) ≤ fuel)%nat →
    fetch_pages fuel api auth params (Z.of_nat (length recs)) (Z.of_nat o)
      (take o recs) w =
    (Ret recs,
     with_calls
       (page_call api auth params <$>
          ((λ i, o + i * 200)%nat <$> seq 0 (num_pages (length recs - o)))) w).
Proof.
  induction fuel as [|fuel IH]; intros o w Hsrv Ho Hfuel.
  { pose proof (num_pages_pos (length recs - o)). lia. }
  destruct Hsrv as [Hprobe Hpage].
  cbn [fetch_pages]. unfold bind at 1.
  change (params ∪ <["Limit":=VInt BATCH_LIMIT]> {["Offset":=VInt (Z.of_nat o)]})
    with (params ∪ <["Limit":=VInt 200]> {["Offset":=VInt (Z.of_nat o)]}).
  erewrite requests_get_response by apply (Hpage (calls w) o).
  unfold bind, json_loads, page_of, getitem, ret; simpl.
  set (rows := take 200 (drop o recs)).
  assert (length rows = Nat.min 200 (length recs - o)) as Hlen.
  { unfold rows. rewrite length_take, length_drop. lia. }
  destruct (decide (length recs - o ≤ 200)%nat) as [Hlast|Hmore].
  - (* the last page *)
    assert ((Z.of_nat (length recs) <=? Z.of_nat o + Z.of_nat (length rows)) = true)
      as -> by (apply Z.leb_le; lia).
    rewrite orb_true_r.
    rewrite (num_pages_last _ Hlast). simpl.
    rewrite ?Nat.mul_0_l, ?Nat.add_0_r.
    f_equal. unfold rows. rewrite (take_ge (drop o recs)) by (rewrite length_drop; lia).
    by rewrite take_drop.
  - (* a full page, and more to come *)
    assert ((Z.of_nat (length rows) =? 0) = false) as ->
      by (apply Z.eqb_neq; lia).
    assert ((Z.of_nat (length recs) <=? Z.of_nat o + Z.of_nat (length rows)) = false)
      as -> by (apply Z.leb_gt; lia).
    simpl.
    replace (Z.of_nat o + Z.of_nat (length rows)) with (Z.of_nat (o + 200)) by lia.
    replace (take o recs ++ rows) with (take (o + 200) recs)
      by (unfold rows; symmetry; apply take_take_drop).
    rewrite IH; cycle 1.
    + split; simpl; intros; [apply Hprobe | apply Hpage].
    + lia.
    + rewrite num_pages_more in Hfuel by lia.
      replace (length recs - (o + 200))%nat with (length recs - o - 200)%nat by lia.
      lia.
    + rewrite with_calls_app. f_equal. f_equal.
      rewrite (num_pages_more (length recs - o)) by lia.
      replace (length recs - (o + 200))%nat with (length recs - o - 200)%nat by lia.
      cbn [seq fmap list_fmap]. rewrite Nat.mul_0_l, Nat.add_0_r.
      f_equal. rewrite <- seq_shift, <- !list_fmap_compose.
      apply list_fmap_ext. intros _ i _. simpl. f_equal. lia.
Qed.

Lemma probe_succeeds api auth params w n d :
  remote w (calls w) (probe_call api auth (default ∅ params)) =
    Response 200 (Body (Some n) d) →
  ∀ fuel,
    get_mailjet_data_list fuel api auth params w =
    match fetch_pages fuel api auth (default ∅ params) n 0 []
            (with_calls [probe_call api auth (default ∅ params)] w) with
    | (Ret data, w') => (Ret (Some data), w')
    | (Raise e, w') => (Raise e, w')
    | (OutOfFuel, w') => (OutOfFuel, w')
    end.
Proof.
  intros E fuel. unfold get_mailjet_data_list. cbv zeta.
  unfold bind at 1. unfold try_except. unfold bind at 1. unfold probe_call in E.
  rewrite (requests_get_response _ _ _ _ _ _ E).
  unfold bind, json_loads, getitem, ret; simpl.
  by destruct (fetch_pages _ _ _ _ _ _ _ _) as [[?|?|] ?].
Qed.

Lemma paged_server_serves recs api auth :
  serves (paged_server recs) api auth ∅ recs.
Proof.
  split.
  - intros hist. by eexists.
  - intros hist offset. unfold paged_server, page_call.
    replace ((∅ ∪ <["Limit":=VInt 200]> {["Offset":=VInt (Z.of_nat offset)]})
               !! "countOnly") with (@None val) by (by vm_compute).
    replace ((∅ ∪ <["Limit":=VInt 200]> {["Offset":=VInt (Z.of_nat offset)]})
               !! "Limit") with (Some (VInt 200)) by (by vm_compute).
    replace ((∅ ∪ <["Limit":=VInt 200]> {["Offset":=VInt (Z.of_nat offset)]})
               !! "Offset") with (Some (VInt (Z.of_nat offset))) by (by vm_compute).
    by rewrite Nat2Z.id.
Qed.



(** The other way out of the loop: when the probe promised more than the
    pages hold (here 450 for 300), the first empty page ends the listing.
    The offsets are the running total of the page sizes. *)
Lemma exhausted_page_stops :
  let r :=
    get_mailjet_data_list 5 MAILJET_MESSAGE_API sample_auth None
      (world_of (overcounting_server (numbered 300) 150) None) in
  match fst r with
  | Ret (Some data) => length data = 300%nat
  | _ => False
  end
  ∧ calls (snd r) =
      probe_call MAILJET_MESSAGE_API sample_auth ∅
        :: (page_call MAILJET_MESSAGE_API sample_auth ∅ <$> [0; 200; 300]%nat).
Proof. split; vm_compute; reflexivity. Qed.

(** ** Failures of the fetcher *)

(** A failing count probe is contained: the fetcher logs and returns
    [None], whatever the failure is among the three it catches. *)
Lemma probe_failure_contained fuel api auth params w :
  (remote w (calls w) (probe_call api auth (default ∅ params)) = ConnectionFailed
   ∨ (∃ c, remote w (calls w) (probe_call api auth (default ∅ params))
             = Response c Garbage)
   ∨ (∃ c d, remote w (calls w) (probe_call api auth (default ∅ params))
               = Response c (Body None d))) →
  fst (get_mailjet_data_list fuel api auth params w) = Ret None.
Proof.
  unfold probe_call, get_mailjet_data_list. cbv zeta.
  unfold bind at 1, try_except, bind at 1, requests_get.
  intros [E|[[c E]|(c & d & E)]]; rewrite E; reflexivity.
Qed.

(** A failing page request is not: once the probe has succeeded, a
    transport failure of the first page request leaves the fetcher as an
    exception. *)
Lemma page_failure_propagates fuel api auth params w c n d :
  remote w (calls w) (probe_call api auth (default ∅ params))
    = Response c (Body (Some n) d) →
  remote w (calls w ++ [probe_call api auth (default ∅ params)])
    (Get api auth
       (default ∅ params ∪ <["Limit" := VInt BATCH_LIMIT]> {["Offset" := VInt 0]}))
    = ConnectionFailed →
  fst (get_mailjet_data_list (S fuel) api auth params w) = Raise RequestException.
Proof.
  intros Eprobe Epage.
  unfold probe_call in Eprobe. unfold get_mailjet_data_list. cbv zeta.
  unfold bind at 1, try_except, bind at 1, requests_get. rewrite Eprobe.
  cbn [fetch_pages]. unfold bind, requests_get. simpl.
  unfold probe_call in Epage. by rewrite Epage.
Qed.

(** C2 (the code does otherwise). With a probe that reports one record
    and page requests that fail, [get_mailjet_data_list] does not return
    [None]: a transport failure leaves it as [RequestException], an
    undecodable page as [JSONDecodeError], a page without [Count] as
    [KeyError]; in [main] the exception ends the run. *)
Theorem page_failure_escapes :
  fst (get_mailjet_data_list 5 MAILJET_MESSAGE_API sample_auth None
         (world_of (provider_failing_pages sample_keys [bounce_event]
                      ConnectionFailed) None))
    = Raise RequestException
  ∧ fst (get_mailjet_data_list 5 MAILJET_MESSAGE_API sample_auth None
           (world_of (provider_failing_pages sample_keys [bounce_event]
                        (Response 200 Garbage)) None))
    = Raise JSONDecodeError
  ∧ fst (get_mailjet_data_list 5 MAILJET_MESSAGE_API sample_auth None
           (world_of (provider_failing_pages sample_keys [bounce_event]
                        (Response 200 (Body None (Some [])))) None))
    = Raise (KeyError "Count")
  ∧ fst (@main sample_lib 5
           (sample_host (sample_config [sample_subaccount (Some "alpha")]) 1000)
           (world_of (provider_failing_pages sample_keys [bounce_event]
                        ConnectionFailed) (Some (FileDict ∅))))
    = Raise RequestException.
Proof. repeat split; vm_compute; reflexivity. Qed.

(** ** A state file that holds [null] *)

(** C3 (the code does otherwise). With a state file holding [null], the
    run logs "State file is empty, reporting over the last ... days" and
    goes on with [state = None]; the first subaccount that reaches the
    watermark lookup raises [AttributeError], and the run ends without
    a report.  An empty state file fails earlier, in [json.load]. *)
Theorem null_state_file_crashes :
  let run :=
    @main sample_lib 5
      (sample_host (sample_config [sample_subaccount (Some "alpha")]) 1000) in
  let srv := provider sample_keys [bounce_event] (Response 200 (Body None None)) in
  fst (run (world_of srv (Some FileNull))) = Raise AttributeError
  ∧ logged (snd (run (world_of srv (Some FileNull)))) =
      [{| lvl := INFO;
          msg := "State file is empty, reporting over the last %s days";
          args := ["1"] |}]
  ∧ fst (run (world_of srv (Some FileEmpty))) = Raise JSONDecodeError
  ∧ fst (run (world_of srv None)) = Ret tt.
Proof. repeat split; vm_compute; reflexivity. Qed.

(** ** Malformed subaccount entries *)

Lemma validate_subaccount_returns ps days acc sa w :
  ∃ sa', fst (validate_subaccount ps days acc sa w) = Ret (acc ++ [sa'])
         ∧ sa_name sa' = sa_name sa.
Proof.
  unfold validate_subaccount.
  destruct (sa_name sa) as [name|] eqn:En;
    [|exists sa; split; [reflexivity|done]].
  destruct (sa_profile sa) as [pname|];
    [|exists sa; split; [reflexivity|done]].
  destruct (alist_get pname ps) as [p|];
    [|exists sa; split; [reflexivity|done]].
  destruct (negb _); [exists sa; split; [reflexivity|done]|].
  cbv zeta.
  change (sa_recipients (set_profile_details p (default days (sa_report_days sa)) sa))
    with (sa_recipients sa).
  destruct (sa_recipients sa) as [rs|];
    [|eexists; split; [reflexivity|done]].
  unfold bind.
  assert (∀ inv w, ∃ b w', for_each (check_recipient name) rs inv w = (Ret b, w'))
    as Hloop.
  { clear. induction rs as [|r rs IH]; intros inv w; [by eexists _, _|].
    simpl. unfold bind at 1, check_recipient at 1.
    destruct (_ || _); simpl; apply IH. }
  destruct (Hloop false w) as (b & w' & ->).
  destruct b; eexists; (split; [reflexivity|done]).
Qed.

(** The validation loop never raises: it returns one entry per entry of
    the configuration, in order. *)
Lemma validation_total ps days sas :
  ∀ acc w, ∃ sas',
    fst (for_each (validate_subaccount ps days) sas acc w) = Ret (acc ++ sas')
    ∧ sa_name <$> sas' = sa_name <$> sas.
Proof.
  induction sas as [|sa sas IH]; intros acc w.
  - exists []. by rewrite app_nil_r.
  - rewrite for_each_cons.
    destruct (validate_subaccount_returns ps days acc sa w) as (sa' & Hv & Hn).
    destruct (validate_subaccount ps days acc sa w) as [[r|x|] w1];
      simpl in Hv; try discriminate.
    injection Hv as ->.
    destruct (IH (acc ++ [sa']) w1) as (sas' & -> & Hnames).
    exists (sa' :: sas'). rewrite <- app_assoc. split; [done|].
    rewrite !fmap_cons. by rewrite Hn, Hnames.
Qed.

Section InvalidEntries.
Context `{PyLib}.

(** An entry that the validation left invalid and that has a name is
    passed over by the processing loop: a warning, and the state as it
    was. *)
Lemma named_invalid_entry_skipped fuel cfg ps dir day now dflt auth st sa name w :
  default false (sa_valid sa) = false →
  sa_name sa = Some name →
  process_subaccount fuel cfg ps dir day now dflt auth st sa w =
    (Ret st,
     with_log {| lvl := WARNING; msg := "Subaccount %s not valid, skipping";
                 args := [name] |} w).
Proof.
  intros Hvalid Hname.
  unfold process_subaccount, gather_report. rewrite Hvalid, Hname. reflexivity.
Qed.

End InvalidEntries.

(** C8 (the code does otherwise). An entry without a name is passed over
    by the validation loop, but the processing loop's "not valid" warning
    reads its name: the run ends there with [KeyError], before the valid
    entry that follows is fetched or reported and before the state file
    is written. *)
Theorem nameless_entry_aborts_run :
  let r :=
    @main sample_lib 5
      (sample_host
         (sample_config [sample_subaccount None; sample_subaccount (Some "alpha")])
         1000)
      (world_of (provider sample_keys [bounce_event] (Response 200 (Body None None)))
         (Some (FileDict ∅))) in
  fst r = Raise (KeyError "name")
  ∧ calls (snd r) =
      [probe_call MAILJET_APIKEY_API
         {| username := VStr "master"; password := VStr "secret" |} ∅;
       page_call MAILJET_APIKEY_API
         {| username := VStr "master"; password := VStr "secret" |} ∅ 0]
  ∧ logged (snd r) =
      [{| lvl := ERROR;
          msg := "Subaccount name not found in subaccount report config, skipping";
          args := [] |}]
  ∧ fs_events (snd r) = [OpenRead; Close].
Proof. repeat split; vm_compute; reflexivity. Qed.

(** ** Watermarks *)

Section Watermarks.
Context `{PyLib}.

(** The loop body, read off its two halves. *)
Lemma process_subaccount_cases fuel e st sa w :
  process_subaccount fuel (re_cfg e) (re_profiles e) (re_subaccount_data e)
    (re_day_of_week e) (re_current_ts e) (re_default_last_ts e)
    (re_master_auth e) st sa w =
  match gather_report fuel (re_profiles e) (re_subaccount_data e)
          (re_day_of_week e) (re_current_ts e) (re_default_last_ts e) st sa w with
  | (Ret None, w1) => (Ret st, w1)
  | (Ret (Some j), w1) =>
      match send_report (re_cfg e) sa (job_stats j) (job_details j)
              (job_last_ts j) (re_current_ts e) (re_master_auth e) w1 with
      | (Ret true, w2) =>
          (match st with
           | Some m => Ret (Some (<[job_id j := re_current_ts e]> m))
           | None => Raise TypeError
           end, w2)
      | (Ret false, w2) => (Ret st, w2)
      | (Raise x, w2) => (Raise x, w2)
      | (OutOfFuel, w2) => (OutOfFuel, w2)
      end
  | (Raise x, w1) => (Raise x, w1)
  | (OutOfFuel, w1) => (OutOfFuel, w1)
  end.
Proof.
  unfold process_subaccount, bind.
  destruct (gather_report _ _ _ _ _ _ _ _ _) as [[[j|]|x|] w1]; try reflexivity.
  destruct (send_report _ _ _ _ _ _ _ _) as [[[|]|x|] w2]; try reflexivity.
  simpl. by destruct st.
Qed.




Lemma bind_fst_ret {A B} (m : M A) (k : A → M B) w b :
  fst (bind m k w) = Ret b →
  ∃ a, fst (m w) = Ret a ∧ bind m k w = k a (snd (m w)).
Proof.
  unfold bind. destruct (m w) as [[a|x|] w1]; simpl; try discriminate.
  intros _. by exists a.
Qed.

Lemma startup_state fuel h w e :
  fst (startup fuel h w) = Ret e →
  re_current_ts e = time h ∧
  re_state e = loaded_state (sync_file w).
Proof.
  unfold loaded_state, startup. cbv zeta. unfold bind, try_except, read_state_file.
  repeat (case_match; simpl in *; try discriminate).
  all: intros [= <-]; simpl; split; [reflexivity|].
  all: unfold ret, raise, _LOGGER in *; simplify_eq; done.
Qed.


End Watermarks.



(** ** The state file is only written at the end *)

Lemma reads_only_refl w : reads_only w w.
Proof.
  repeat split; try done. exists []. by rewrite app_nil_r.
Qed.

Lemma reads_only_same_fs w w' :
  sync_file w' = sync_file w → buffered w' = buffered w →
  fs_events w' = fs_events w → reads_only w w'.
Proof.
  intros Hf Hb He. repeat split; try done. exists []. by rewrite app_nil_r.
Qed.

Lemma reads_only_trans w1 w2 w3 :
  reads_only w1 w2 → reads_only w2 w3 → reads_only w1 w3.
Proof.
  intros (Hf & Hb & es & He & Hr) (Hf' & Hb' & es' & He' & Hr').
  repeat split; [congruence..|].
  exists (es ++ es'). split; [|by apply Forall_app].
  by rewrite He', He, <- app_assoc.
Qed.

Lemma readonly_ret {A} (a : A) : readonly (ret a).
Proof. intros w. apply reads_only_refl. Qed.

Lemma readonly_raise {A} e : readonly (@raise A e).
Proof. intros w. apply reads_only_refl. Qed.

Lemma readonly_out_of_fuel {A} : readonly (@out_of_fuel A).
Proof. intros w. apply reads_only_refl. Qed.

Lemma readonly_bind {A B} (m : M A) (k : A → M B) :
  readonly m → (∀ a, readonly (k a)) → readonly (bind m k).
Proof.
  intros Hm Hk w. specialize (Hm w). unfold bind.
  destruct (m w) as [[a|x|] w1]; simpl in *; try done.
  eapply reads_only_trans; [exact Hm | apply Hk].
Qed.

Lemma readonly_try_except {A} (body : M A) caught handler :
  readonly body → (∀ e, readonly (handler e)) →
  readonly (try_except body caught handler).
Proof.
  intros Hm Hk w. specialize (Hm w). unfold try_except.
  destruct (body w) as [[a|x|] w1]; simpl in *; try done.
  destruct (caught x); [|done].
  eapply reads_only_trans; [exact Hm | apply Hk].
Qed.

Lemma readonly_for_each {A S} (body : S → A → M S) l :
  (∀ s a, readonly (body s a)) → ∀ s, readonly (for_each body l s).
Proof.
  intros Hbody. induction l as [|a l IH]; intros s; simpl.
  - apply readonly_ret.
  - apply readonly_bind; [apply Hbody | apply IH].
Qed.

Lemma readonly_getitem {A} key (o : option A) : readonly (getitem key o).
Proof. destruct o; [apply readonly_ret | apply readonly_raise]. Qed.

Lemma readonly_json_loads c : readonly (json_loads c).
Proof. destruct c; [apply readonly_raise | apply readonly_ret]. Qed.

Lemma readonly_LOGGER l m a : readonly (_LOGGER l m a).
Proof. intros w. by apply reads_only_same_fs. Qed.

Lemma readonly_requests_get api auth q : readonly (requests_get api auth q).
Proof.
  intros w. unfold requests_get. by destruct (remote w _ _); apply reads_only_same_fs.
Qed.

Lemma readonly_requests_post api auth hs body :
  readonly (requests_post api auth hs body).
Proof.
  intros w. unfold requests_post. by destruct (remote w _ _); apply reads_only_same_fs.
Qed.

Lemma readonly_read_state_file : readonly read_state_file.
Proof.
  intros w. unfold read_state_file.
  destruct (sync_file w) as [t|] eqn:E; [|apply reads_only_refl].
  assert (reads_only w
            (with_fs (sync_file w) (buffered w) Close
               (with_fs (sync_file w) (buffered w) OpenRead w))) as Hr.
  { split; [done|]. split; [done|]. exists [OpenRead; Close].
    split; [simpl; by rewrite <- app_assoc|].
    apply Forall_cons; split; [by left|].
    apply Forall_cons; split; [by right|]. apply Forall_nil_2. }
  rewrite E in Hr. by destruct t.
Qed.

Create HintDb readonly.
#[local] Hint Resolve readonly_ret readonly_raise readonly_out_of_fuel
  readonly_getitem readonly_json_loads readonly_LOGGER readonly_requests_get
  readonly_requests_post readonly_read_state_file : readonly.

(** Walks a monadic term: binds, handlers and loops structurally, case
    distinctions by cases, the leaves from the hint database. *)
Ltac readonly_walk :=
  repeat first
    [ progress cbv zeta
    | solve [auto with readonly]
    | apply readonly_bind; [|intros ?]
    | apply readonly_try_except; [|intros ?]
    | apply readonly_for_each; intros ? ?
    | match goal with
      | |- readonly (match ?x with _ => _ end) => destruct x
      | |- readonly (let '(_, _) := ?x in _) => destruct x
      end ].

Lemma readonly_fetch_pages fuel api auth params count :
  ∀ offset data, readonly (fetch_pages fuel api auth params count offset data).
Proof.
  induction fuel as [|fuel IH]; intros offset data; simpl; readonly_walk.
Qed.
#[local] Hint Resolve readonly_fetch_pages : readonly.

Lemma readonly_get_mailjet_data_list fuel api auth params :
  readonly (get_mailjet_data_list fuel api auth params).
Proof. unfold get_mailjet_data_list. readonly_walk. Qed.
#[local] Hint Resolve readonly_get_mailjet_data_list : readonly.

Lemma readonly_get_subaccount_data fuel auth :
  readonly (get_subaccount_data fuel auth).
Proof. unfold get_subaccount_data. readonly_walk. Qed.

Lemma readonly_validate_profile acc entry : readonly (validate_profile acc entry).
Proof. unfold validate_profile. readonly_walk. Qed.

Lemma readonly_validate_subaccount ps days acc sa :
  readonly (validate_subaccount ps days acc sa).
Proof. unfold validate_subaccount, check_recipient. readonly_walk. Qed.
#[local] Hint Resolve readonly_get_subaccount_data readonly_validate_profile
  readonly_validate_subaccount : readonly.

Section WriteOnce.
Context `{PyLib}.

Lemma readonly_gen_bounce_data_html cfg fmt details :
  readonly (gen_bounce_data_html cfg fmt details).
Proof.
  unfold gen_bounce_data_html, gen_state_table, gen_row, gen_cell. readonly_walk.
Qed.

Lemma readonly_process_messages fields data :
  readonly (process_messages fields data).
Proof. unfold process_messages, count_message. readonly_walk. Qed.

#[local] Hint Resolve readonly_gen_bounce_data_html readonly_process_messages : readonly.

Lemma readonly_send_report cfg sa stats details last_ts current_ts auth :
  readonly (send_report cfg sa stats details last_ts current_ts auth).
Proof. unfold send_report. readonly_walk. Qed.

#[local] Hint Resolve readonly_send_report : readonly.

Lemma readonly_process_subaccount fuel cfg ps dir day now dflt auth st sa :
  readonly (process_subaccount fuel cfg ps dir day now dflt auth st sa).
Proof. unfold process_subaccount, gather_report. readonly_walk. Qed.

#[local] Hint Resolve readonly_process_subaccount : readonly.

Lemma readonly_startup fuel h : readonly (startup fuel h).
Proof. unfold startup. readonly_walk. Qed.

Lemma readonly_run_reports fuel h : readonly (run_reports fuel h).
Proof.
  unfold run_reports, process_reports.
  apply readonly_bind; [apply readonly_startup|]. intros e.
  apply readonly_for_each. intros st sa. apply readonly_process_subaccount.
Qed.

(** C7 (amended). Up to the end of the processing loop a run never writes
    the state file: its content and buffer are what they were and only
    read events were added, whatever the run's outcome.  A run that
    completes the loop then writes the file once: open for writing, dump
    of the in-memory state, flush, fsync, close; a run that ends before
    (by an exit or an exception) does not write at all. *)
Theorem state_written_once_at_end (fuel : nat) (h : host) (w : world) :
  reads_only w (snd (run_reports fuel h w)) ∧
  match fst (run_reports fuel h w) with
  | Ret state =>
      fst (main fuel h w) = Ret tt ∧
      sync_file (snd (main fuel h w)) = Some (json_of_state state) ∧
      fs_events (snd (main fuel h w)) =
        fs_events (snd (run_reports fuel h w)) ++
          [OpenWrite; WriteText (json_of_state state); Flush; Fsync; Close]
  | _ => snd (main fuel h w) = snd (run_reports fuel h w)
  end.
Proof.
  split; [apply readonly_run_reports|].
  unfold main, bind.
  destruct (run_reports fuel h w) as [[st|x|] w1]; simpl; try done.
  repeat split. by rewrite <- !app_assoc.
Qed.

End WriteOnce.

(** C7, as stated, fails on "atomically": the final block opens the file
    for writing, which truncates it, before the new state is dumped and
    flushed; interrupted after that first step, the file holds neither
    the old state nor the new one. *)
Lemma state_write_not_atomic : ¬ state_write_is_atomic.
Proof.
  intros Hclaim.
  destruct (Hclaim (Some {["7" := 1000]})
              (world_of (paged_server []) (Some (FileDict {["7" := 500]}))) 1%nat)
    as [Hold|Hnew]; simpl in *; discriminate.
Qed.

(** ** Skip policy *)


Section Dispatcher.
Context `{PyLib}.


End Dispatcher.


(** ** Aggregation *)

Lemma alist_get_set {K V} `{EqDecision K} (k k' : K) (v : V) d :
  alist_get k' (alist_set k v d) =
    if decide (k' = k) then Some v else alist_get k' d.
Proof.
  induction d as [|[k0 v0] d IH]; simpl.
  - by destruct (decide (k' = k)).
  - destruct (decide (k = k0)) as [->|Hne]; simpl.
    + by destruct (decide (k' = k0)).
    + destruct (decide (k' = k0)) as [->|Hne'].
      * by rewrite decide_False by done.
      * apply IH.
Qed.

Lemma with_status_cons s r data :
  with_status s (r :: data) =
    if decide (r !! "Status" = Some s) then r :: with_status s data
    else with_status s data.
Proof. unfold with_status. by rewrite filter_cons. Qed.

Section Compositor.
Context `{PyLib}.

Lemma process_messages_from fields data :
  Forall (λ r : record, is_Some (r !! "Status")) data →
  ∀ d s w, ∃ d' s',
    for_each (count_message fields) data (d, s) w = (Ret (d', s'), w) ∧
    ∀ k,
      alist_get k s' = add_count (alist_get k s) (length (with_status k data)) ∧
      alist_get k d' =
        if decide (k ∈ fields)
        then add_rows (alist_get k d) (detail_row <$> with_status k data)
        else alist_get k d.
Proof.
  induction 1 as [|r data [s0 Hs0] _ IH]; intros d s w.
  - exists d, s. split; [done|]. intros k. by destruct (decide (k ∈ fields)).
  - rewrite for_each_cons. unfold count_message at 1. rewrite Hs0.
    unfold bind, getitem, ret. cbv zeta.
    match goal with
    | |- context [for_each _ data (?d1, ?s1) w] =>
        destruct (IH d1 s1 w) as (d' & s' & -> & Hk)
    end.
    exists d', s'. split; [done|]. intros k.
    destruct (Hk k) as [Hstats Hdetails]. rewrite Hstats, Hdetails.
    rewrite with_status_cons, Hs0, alist_get_set.
    destruct (decide (k = s0)) as [->|Hne].
    + rewrite decide_True by done. split.
      * simpl length. destruct (length (with_status s0 data)); simpl; f_equal; lia.
      * destruct (decide (s0 ∈ fields)) as [Hin|Hout]; [|done].
        rewrite alist_get_set, decide_True by done. rewrite fmap_cons.
        destruct (with_status s0 data) as [|r' rs]; [done|].
        simpl. f_equal. by rewrite <- app_assoc.
    + rewrite (decide_False (P := Some s0 = Some k)) by congruence.
      split; [done|].
      destruct (decide (s0 ∈ fields));
        rewrite ?alist_get_set, ?(decide_False (P := k = s0)) by done; done.
Qed.

Lemma detail_row_fields (r : record) :
  detail_row r !! "id" = r !! "ID" ∧
  detail_row r !! "date_time" = r !! "ArrivedAt" ∧
  detail_row r !! "contact" = r !! "ContactAlt" ∧
  detail_row r !! "state" = r !! "Status" ∧
  detail_row r !! "subject" = r !! "Subject" ∧
  ∀ k, k ∉ ["id"; "date_time"; "contact"; "state"; "subject"] →
       detail_row r !! k = None.
Proof.
  unfold detail_row, MESSAGE_FIELDS. simpl fold_left.
  destruct (r !! "ID"), (r !! "ArrivedAt"), (r !! "ContactAlt"),
    (r !! "Status"), (r !! "Subject");
    repeat split; try (by simplify_map_eq);
    intros k Hk; repeat rewrite lookup_insert_ne by set_solver;
    apply lookup_empty.
Qed.


End Compositor.


(** ** Rendering the details *)

(** In a loop whose body either returns or raises an exception of the
    kind [Q], without touching the world, an element on which the body
    must raise makes the loop raise. *)
Lemma for_each_first_failure {A S} (body : S → A → M S) (P : A → Prop)
    (Q : exn → Prop) (l : list A) :
  (∀ s a w, P a → ∃ e, Q e ∧ body s a w = (Raise e, w)) →
  (∀ s a w, (∃ s', body s a w = (Ret s', w))
            ∨ (∃ e, Q e ∧ body s a w = (Raise e, w))) →
  (∃ a, a ∈ l ∧ P a) →
  ∀ s w, ∃ e, Q e ∧ for_each body l s w = (Raise e, w).
Proof.
  intros Hfail Hcases. induction l as [|a l IH]; intros (a0 & Hin & HP) s w.
  - by apply elem_of_nil in Hin.
  - rewrite for_each_cons.
    destruct (Hcases s a w) as [[s' E]|(e & Qe & E)]; rewrite E; [|by exists e].
    apply elem_of_cons in Hin as [->|Hin].
    + destruct (Hfail s a w HP) as (e & _ & E'). congruence.
    + apply IH. by exists a0.
Qed.

(** The same loop either returns or raises an exception of that kind. *)
Lemma for_each_cases {A S} (body : S → A → M S) (Q : exn → Prop) (l : list A) :
  (∀ s a w, (∃ s', body s a w = (Ret s', w))
            ∨ (∃ e, Q e ∧ body s a w = (Raise e, w))) →
  ∀ s w, (∃ s', for_each body l s w = (Ret s', w))
         ∨ (∃ e, Q e ∧ for_each body l s w = (Raise e, w)).
Proof.
  intros Hcases. induction l as [|a l IH]; intros s w; [left; by eexists|].
  rewrite for_each_cons.
  destruct (Hcases s a w) as [[s' E]|(e & Qe & E)]; rewrite E; [apply IH|].
  right. by exists e.
Qed.

Section Rendering.
Context `{PyLib}.

Lemma gen_row_cases fmt tz html (row : record) w :
  (lacks_detail_field row →
   ∃ e, detail_key_error e ∧ gen_row fmt tz html row w = (Raise e, w)) ∧
  ((∃ html', gen_row fmt tz html row w = (Ret html', w))
   ∨ (∃ e, detail_key_error e ∧ gen_row fmt tz html row w = (Raise e, w))).
Proof.
  unfold gen_row, REPORT_DETAILS_FIELDS, lacks_detail_field, detail_key_error.
  simpl for_each. unfold bind, gen_cell, getitem, ret, raise.
  destruct (row !! "date_time") as [v1|] eqn:E1; simpl;
    [|split; [intros _|right]; exists (KeyError "date_time");
      (split; [exists "date_time"; split; [set_solver|done]|done])].
  destruct (row !! "contact") as [v2|] eqn:E2; simpl;
    [|split; [intros _|right]; exists (KeyError "contact");
      (split; [exists "contact"; split; [set_solver|done]|done])].
  destruct (row !! "subject") as [v3|] eqn:E3; simpl;
    [|split; [intros _|right]; exists (KeyError "subject");
      (split; [exists "subject"; split; [set_solver|done]|done])].
  split; [by intros [?|[?|?]]|]. left. by eexists.
Qed.

Lemma gen_state_table_cases tr fmt tz html (entry : val * list record) w :
  ((∃ row, row ∈ entry.2 ∧ lacks_detail_field row) →
   ∃ e, detail_key_error e ∧ gen_state_table tr fmt tz html entry w = (Raise e, w)) ∧
  ((∃ html', gen_state_table tr fmt tz html entry w = (Ret html', w))
   ∨ (∃ e, detail_key_error e ∧ gen_state_table tr fmt tz html entry w = (Raise e, w))).
Proof.
  destruct entry as [state rows]. unfold gen_state_table. cbv zeta.
  match goal with
  | |- context [for_each _ rows ?h] => generalize h; intros html0
  end.
  unfold bind. split.
  - intros Hrow.
    destruct (for_each_first_failure (gen_row fmt tz) lacks_detail_field
                detail_key_error rows
                (λ s a w, proj1 (gen_row_cases fmt tz s a w))
                (λ s a w, proj2 (gen_row_cases fmt tz s a w))
                Hrow html0 w) as (e & Qe & ->).
    by exists e.
  - destruct (for_each_cases (gen_row fmt tz) detail_key_error rows
                (λ s a w, proj2 (gen_row_cases fmt tz s a w)) html0 w)
      as [[html' ->]|(e & Qe & ->)]; [left; by eexists | right; by exists e].
Qed.

Lemma gen_bounce_data_html_cases cfg fmt details w :
  ((∃ entry row, entry ∈ details ∧ row ∈ entry.2 ∧ lacks_detail_field row) →
   ∃ e, detail_key_error e ∧ gen_bounce_data_html cfg fmt details w = (Raise e, w)) ∧
  ((∃ html, gen_bounce_data_html cfg fmt details w = (Ret html, w))
   ∨ (∃ e, detail_key_error e ∧ gen_bounce_data_html cfg fmt details w = (Raise e, w))).
Proof.
  unfold gen_bounce_data_html. cbv zeta. unfold bind.
  set (tr := cfg_status_translations cfg).
  set (tz := default "Europe/Amsterdam" (gs_timezone (cfg_global_settings cfg))).
  split.
  - intros (entry & row & Hentry & Hrow & Hlacks).
    destruct (for_each_first_failure (gen_state_table tr fmt tz)
                (λ entry, ∃ row, row ∈ entry.2 ∧ lacks_detail_field row)
                detail_key_error details
                (λ s a w, proj1 (gen_state_table_cases tr fmt tz s a w))
                (λ s a w, proj2 (gen_state_table_cases tr fmt tz s a w))
                (ex_intro _ entry (conj Hentry (ex_intro _ row (conj Hrow Hlacks))))
                "" w) as (e & Qe & ->).
    by exists e.
  - destruct (for_each_cases (gen_state_table tr fmt tz) detail_key_error details
                (λ s a w, proj2 (gen_state_table_cases tr fmt tz s a w)) "" w)
      as [[html' ->]|(e & Qe & ->)]; [left; by eexists | right; by exists e].
Qed.

End Rendering.

(** ** The outbound message *)

Lemma bind_getitem_Some {A B} key (a : A) (k : A → M B) w :
  bind (getitem key (Some a)) k w = k a w.
Proof. reflexivity. Qed.

Lemma bind_getitem_None {A B} key (k : A → M B) w :
  bind (getitem key None) k w = (Raise (KeyError key), w).
Proof. reflexivity. Qed.

Lemma bind_returned {A B} (m : M A) (k : A → M B) w a w' :
  m w = (Ret a, w') → bind m k w = k a w'.
Proof. intros E. unfold bind. by rewrite E. Qed.

Lemma bind_raised {A B} (m : M A) (k : A → M B) w e w' :
  m w = (Raise e, w') → bind m k w = (Raise e, w').
Proof. intros E. unfold bind. by rewrite E. Qed.

Section Outbound.
Context `{PyLib}.

(** [send_report], case by case: it raises a [KeyError] before any
    request, or skips, or posts one message and returns whether the
    provider accepted it. *)
Lemma send_report_cases cfg sa stats details last_ts current_ts auth w :
  (∃ e, key_error e ∧
        send_report cfg sa stats details last_ts current_ts auth w = (Raise e, w))
  ∨ (send_report cfg sa stats details last_ts current_ts auth w = (Ret false, w)
     ∧ (is_empty details = true ∨ is_empty stats = true))
  ∨ (∃ pd template name html msg,
       sa_profile_details sa = Some pd ∧ pr_subject pd = Some template ∧
       sa_name sa = Some name ∧
       gen_bounce_data_html cfg
         (default (default "%Y-%m-%d %H:%M:%S"
                     (gs_time_format (cfg_global_settings cfg)))
            (pr_time_format pd)) details w = (Ret html, w) ∧
       Subject msg =
         str_format template
           [name;
            strftime_in_zone current_ts
              (default "Europe/Amsterdam" (gs_timezone (cfg_global_settings cfg)))
              (default "%Y-%m-%d" (gs_time_format (cfg_global_settings cfg)))] ∧
       rep_start (Variables msg) =
         time_from_timestamp last_ts
           (default "%Y-%m-%d %H:%M:%S" (gs_time_format (cfg_global_settings cfg)))
           (default "Europe/Amsterdam" (gs_timezone (cfg_global_settings cfg))) ∧
       rep_end (Variables msg) =
         time_from_timestamp current_ts
           (default "%Y-%m-%d %H:%M:%S" (gs_time_format (cfg_global_settings cfg)))
           (default "Europe/Amsterdam" (gs_timezone (cfg_global_settings cfg))) ∧
       calls (snd (send_report cfg sa stats details last_ts current_ts auth w)) =
         calls w ++
           [Post MAILJET_MAIL_SEND_API auth
              {["Content-Type" := "application/json"]} [msg]] ∧
       fst (send_report cfg sa stats details last_ts current_ts auth w) =
         Ret (accepted
                (remote w (calls w)
                   (Post MAILJET_MAIL_SEND_API auth
                      {["Content-Type" := "application/json"]} [msg])))).
Proof.
  unfold send_report. cbv zeta.
  destruct (sa_profile_details sa) as [pd|];
    [|left; eexists; split; [by eexists|reflexivity]].
  rewrite !bind_getitem_Some. cbv beta.
  match goal with
  | |- context [if ?c then ret false else _] => destruct c eqn:Eskip
  end.
  { right; left. split; [done|].
    apply orb_true_iff in Eskip as [E|E]; apply andb_true_iff in E as [_ E]; auto. }
  rewrite !bind_getitem_Some. cbv beta.
  destruct (pr_subject pd) as [template|] eqn:Esub;
    [rewrite bind_getitem_Some
    |left; eexists; split; [by eexists|reflexivity]].
  destruct (sa_name sa) as [name|] eqn:Ename;
    [rewrite !bind_getitem_Some
    |left; eexists; split; [by eexists|reflexivity]].
  destruct (pr_from_email pd) as [from_email|];
    [rewrite bind_getitem_Some
    |left; eexists; split; [by eexists|reflexivity]].
  destruct (pr_from_name pd) as [from_name|];
    [rewrite bind_getitem_Some
    |left; eexists; split; [by eexists|reflexivity]].
  destruct (sa_recipients sa) as [rs|];
    [rewrite bind_getitem_Some
    |left; eexists; split; [by eexists|reflexivity]].
  match goal with
  | |- context [for_each ?body rs []] =>
      destruct (for_each_cases body key_error rs) with (s := @nil address) (w := w)
        as [[to Eto]|(e & Qe & Eto)]
  end.
  { intros acc r w0. destruct (to_email r) as [em|];
      [|right; eexists; split; [by eexists|reflexivity]].
    destruct (to_name r) as [nm|];
      [|right; eexists; split; [by eexists|reflexivity]].
    left. by eexists. }
  2: { left. exists e. split; [done|]. by rewrite (bind_raised _ _ _ _ _ Eto). }
  rewrite (bind_returned _ _ _ _ _ Eto).
  destruct (pr_template_id pd) as [template_id|];
    [rewrite bind_getitem_Some
    |left; eexists; split; [by eexists|reflexivity]].
  match goal with
  | |- context [gen_bounce_data_html cfg ?fmt details] =>
      destruct (proj2 (gen_bounce_data_html_cases cfg fmt details w))
        as [[html Ehtml]|(e & (k & _ & ->) & Ehtml)]
  end.
  2: { left. eexists. split; [by eexists|]. by rewrite (bind_raised _ _ _ _ _ Ehtml). }
  rewrite (bind_returned _ _ _ _ _ Ehtml). rewrite bind_getitem_Some.
  right; right.
  match goal with
  | |- context [requests_post _ _ _ [?m]] => exists pd, template, name, html, m
  end.
  split; [reflexivity|]. split; [exact Esub|]. split; [reflexivity|].
  split; [exact Ehtml|]. do 3 (split; [reflexivity|]).
  unfold try_except, bind, requests_post. cbv zeta.
  destruct (remote w (calls w) _) as [|code body]; [by split|].
  unfold accepted. cbn [fst snd]. by destruct (code =? 200); split.
Qed.

End Outbound.

(** ** Detail rows that cannot be rendered *)

Lemma alist_get_elem_of {K V} `{EqDecision K} (k : K) (v : V) d :
  alist_get k d = Some v → (k, v) ∈ d.
Proof.
  induction d as [|[k0 v0] d IH]; simpl; [done|].
  destruct (decide (k = k0)) as [->|Hne].
  - intros [= ->]. apply list_elem_of_here.
  - intros Hd. apply list_elem_of_further. by apply IH.
Qed.

Lemma lacks_detail_field_row (r : record) :
  lacks_detail_field (detail_row r) ↔
  r !! "ArrivedAt" = None ∨ r !! "ContactAlt" = None ∨ r !! "Subject" = None.
Proof.
  unfold lacks_detail_field.
  destruct (detail_row_fields r) as (_ & -> & -> & _ & -> & _). done.
Qed.

Section IncompleteRows.
Context `{PyLib}.

Lemma gen_bounce_data_html_incomplete cfg fmt details w state rows row :
  (state, rows) ∈ details → row ∈ rows → lacks_detail_field row →
  ∃ k, k ∈ ["date_time"; "contact"; "subject"] ∧
       gen_bounce_data_html cfg fmt details w = (Raise (KeyError k), w).
Proof.
  intros Hentry Hrow Hlacks.
  destruct (proj1 (gen_bounce_data_html_cases cfg fmt details w))
    as (e & (k & Hk & ->) & E); [by exists (state, rows), row|].
  by exists k.
Qed.

Lemma send_report_incomplete cfg sa stats details last_ts current_ts auth w
    state rows row :
  (state, rows) ∈ details → row ∈ rows → lacks_detail_field row → stats ≠ [] →
  ∃ k, send_report cfg sa stats details last_ts current_ts auth w
       = (Raise (KeyError k), w).
Proof.
  intros Hentry Hrow Hlacks Hstats.
  destruct (send_report_cases cfg sa stats details last_ts current_ts auth w)
    as [(e & [k ->] & E)|[[_ [E|E]]|(pd & ? & ? & html & ? & _ & _ & _ & E & _)]].
  - by exists k.
  - destruct details; [by apply elem_of_nil in Hentry | done].
  - by destruct stats.
  - destruct (gen_bounce_data_html_incomplete cfg
                (default (default "%Y-%m-%d %H:%M:%S"
                            (gs_time_format (cfg_global_settings cfg)))
                   (pr_time_format pd))
                details w state rows row Hentry Hrow Hlacks) as (k & _ & E').
    congruence.
Qed.


(** The aggregation hands such rows to the dispatcher: a fetched record
    whose status is itemized and that lacks a source field ends the
    report of its subaccount with a [KeyError]. *)
Lemma missing_field_breaks_report cfg sa fields data last_ts current_ts auth w
    (r : record) s :
  Forall (λ r : record, is_Some (r !! "Status")) data →
  r ∈ data → r !! "Status" = Some s → s ∈ fields →
  r !! "ArrivedAt" = None ∨ r !! "ContactAlt" = None ∨ r !! "Subject" = None →
  ∃ details stats k,
    process_messages fields data w = (Ret (details, stats), w) ∧
    send_report cfg sa stats details last_ts current_ts auth w
      = (Raise (KeyError k), w).
Proof.
  intros Hdata Hr Hs Hin Hmissing.
  destruct (process_messages_from fields data Hdata [] [] w)
    as (details & stats & Hrun & Hk).
  assert (r ∈ with_status s data) as Hrs
    by (unfold with_status; by apply list_elem_of_filter).
  destruct (Hk s) as [Hstats Hdetails].
  rewrite decide_True in Hdetails by done.
  destruct (with_status s data) as [|r0 rs] eqn:Ers;
    [by apply elem_of_nil in Hrs|].
  simpl in Hstats, Hdetails.
  destruct (send_report_incomplete cfg sa stats details last_ts current_ts auth w
              s (detail_row <$> r0 :: rs) (detail_row r)) as [k Hsend].
  - by apply alist_get_elem_of.
  - by apply list_elem_of_fmap_2.
  - by apply lacks_detail_field_row.
  - by destruct stats.
  - by exists details, stats, k.
Qed.

End IncompleteRows.


(** In [main] nothing catches the error: a bounce without a subject ends
    the run before the state file is written. *)
Lemma incomplete_record_aborts_run :
  let r :=
    @main sample_lib 5
      (sample_host (sample_config [sample_subaccount (Some "alpha")]) 1000)
      (world_of (provider sample_keys [delete "Subject" bounce_event]
                   (Response 200 (Body None None)))
         (Some (FileDict ∅))) in
  fst r = Raise (KeyError "subject") ∧ fs_events (snd r) = [OpenRead; Close].
Proof. split; vm_compute; reflexivity. Qed.

Section OutboundClaims.
Context `{PyLib}.

(** C9 (amended). Every message that [send_report] posts has as subject
    the profile's subject template formatted with the subaccount name and
    the window end rendered in the global timezone (default
    Europe/Amsterdam) with the global [time_format], or with "%Y-%m-%d"
    when no global [time_format] is set; [rep_start] and [rep_end] are
    the window start and end rendered in the same timezone with the
    global [time_format], or with "%Y-%m-%d %H:%M:%S" when none is set. *)
Theorem outbound_message_times (cfg : config) (sa : subaccount)
    (stats : list (val * Z)) (details : list (val * list record))
    (last_ts current_ts : Z) (auth : HTTPBasicAuth) (w : world)
    (api : string) (a : HTTPBasicAuth) (hs : gmap string string)
    (ms : list message) :
  Post api a hs ms
    ∈ calls (snd (send_report cfg sa stats details last_ts current_ts auth w)) →
  Post api a hs ms ∉ calls w →
  ∃ pd template name msg,
    sa_profile_details sa = Some pd ∧ pr_subject pd = Some template ∧
    sa_name sa = Some name ∧ ms = [msg] ∧
    Subject msg =
      str_format template
        [name;
         strftime_in_zone current_ts
           (default "Europe/Amsterdam" (gs_timezone (cfg_global_settings cfg)))
           (default "%Y-%m-%d" (gs_time_format (cfg_global_settings cfg)))] ∧
    rep_start (Variables msg) =
      time_from_timestamp last_ts
        (default "%Y-%m-%d %H:%M:%S" (gs_time_format (cfg_global_settings cfg)))
        (default "Europe/Amsterdam" (gs_timezone (cfg_global_settings cfg))) ∧
    rep_end (Variables msg) =
      time_from_timestamp current_ts
        (default "%Y-%m-%d %H:%M:%S" (gs_time_format (cfg_global_settings cfg)))
        (default "Europe/Amsterdam" (gs_timezone (cfg_global_settings cfg))).
Proof.
  intros Hin Hnew.
  destruct (send_report_cases cfg sa stats details last_ts current_ts auth w)
    as [(e & _ & E)|[[E _]|(pd & template & name & html & msg & Hpd & Hsub & Hname
                              & _ & Hsubject & Hstart & Hend & Hcalls & _)]].
  - rewrite E in Hin. done.
  - rewrite E in Hin. done.
  - rewrite Hcalls in Hin. apply elem_of_app in Hin as [Hin|Hin]; [done|].
    apply list_elem_of_singleton in Hin. injection Hin as -> -> -> ->.
    by exists pd, template, name, msg.
Qed.

End OutboundClaims.

Lemma outbound_message_times_witness :
  ∃ msg,
    calls (snd (@send_report sample_lib clock_config valid_alpha
                  [(VStr "bounce", 1)] [] 500 1000 sample_auth
                  (world_of (paged_server []) None)))
      = [Post MAILJET_MAIL_SEND_API sample_auth
           {["Content-Type" := "application/json"]} [msg]]
    ∧ Subject msg = "Report {} {} alpha 1000 Europe/Amsterdam %H:%M"
    ∧ rep_start (Variables msg) = "500 Europe/Amsterdam %H:%M"
    ∧ rep_end (Variables msg) = "1000 Europe/Amsterdam %H:%M".
Proof.
  assert (∃ msg,
            calls (snd (@send_report sample_lib clock_config valid_alpha
                          [(VStr "bounce", 1)] [] 500 1000 sample_auth
                          (world_of (paged_server []) None)))
            = [Post MAILJET_MAIL_SEND_API sample_auth
                 {["Content-Type" := "application/json"]} [msg]])
    as [msg0 Hcalls] by (vm_compute; by eexists).
  destruct (@outbound_message_times sample_lib clock_config valid_alpha
              [(VStr "bounce", 1)] [] 500 1000 sample_auth
              (world_of (paged_server []) None)
              MAILJET_MAIL_SEND_API sample_auth
              {["Content-Type" := "application/json"]} [msg0])
    as (pd & template & name & msg & Hpd & Hsub & Hname & Hms & Hsubject
        & Hstart & Hend).
  - rewrite Hcalls. apply list_elem_of_singleton. reflexivity.
  - simpl. apply not_elem_of_nil.
  - exists msg. injection Hms as ->. split; [exact Hcalls|].
    injection Hpd as <-. injection Hsub as <-. injection Hname as <-.
    rewrite Hsubject, Hstart, Hend. by vm_compute.
Defined.

(** C9, as stated, fails on "date-only": the subject date is rendered
    with the global [time_format] whenever one is configured; with
    [time_format: "%H:%M"] the subject carries a time of day and no
    date. *)
Lemma subject_date_not_date_only : ¬ @subject_date_is_date_only sample_lib.
Proof.
  intros Hclaim.
  assert (∃ msg,
            calls (snd (@send_report sample_lib clock_config valid_alpha
                          [(VStr "bounce", 1)] [] 500 1000 sample_auth
                          (world_of (paged_server []) None)))
            = [Post MAILJET_MAIL_SEND_API sample_auth
                 {["Content-Type" := "application/json"]} [msg]]
            ∧ Subject msg = "Report {} {} alpha 1000 Europe/Amsterdam %H:%M")
    as (msg & Hcalls & Hsubject) by (vm_compute; by eexists).
  destruct (Hclaim clock_config valid_alpha [(VStr "bounce", 1)] [] 500 1000
              sample_auth (world_of (paged_server []) None)
              MAILJET_MAIL_SEND_API sample_auth
              {["Content-Type" := "application/json"]} msg)
    as (pd & template & name & fmt & Hpd & Hsub & Hname & Hdate & Hfmt).
  - rewrite Hcalls. apply list_elem_of_singleton. reflexivity.
  - simpl. apply not_elem_of_nil.
  - injection Hpd as <-. injection Hsub as <-. injection Hname as <-.
    rewrite Hsubject in Hfmt. vm_compute in Hfmt.
    by simplify_eq.
Qed.

(** * Further properties *)

(** ** The fetcher *)

(** A count probe that fails in one of the three ways the fetcher catches
    costs one request and one error line, and gives [None]. *)
Theorem probe_failure_returns_none (fuel : nat) (api : string)
    (auth : HTTPBasicAuth) (params : option (gmap string val)) (w : world) :
  (remote w (calls w) (probe_call api auth (default ∅ params)) = ConnectionFailed
   ∨ (∃ c, remote w (calls w) (probe_call api auth (default ∅ params))
             = Response c Garbage)
   ∨ (∃ c d, remote w (calls w) (probe_call api auth (default ∅ params))
               = Response c (Body None d))) →
  ∃ err,
    get_mailjet_data_list fuel api auth params w =
      (Ret None,
       with_log {| lvl := ERROR; msg := "Error fetching count from API %s: %s";
                   args := [api; err] |}
         (with_calls [probe_call api auth (default ∅ params)] w)).
Proof.
  unfold probe_call, get_mailjet_data_list. cbv zeta.
  unfold bind at 1, try_except, bind at 1, requests_get.
  intros [E|[[c E]|(c & d & E)]]; rewrite E; by eexists.
Qed.

Lemma probe_failure_returns_none_witness :
  ∃ err,
    get_mailjet_data_list 3 MAILJET_MESSAGE_API sample_auth None
      (world_of unreachable None) =
      (Ret None,
       with_log {| lvl := ERROR; msg := "Error fetching count from API %s: %s";
                   args := [MAILJET_MESSAGE_API; err] |}
         (with_calls [probe_call MAILJET_MESSAGE_API sample_auth ∅]
            (world_of unreachable None))).
Proof.
  apply (probe_failure_returns_none 3 MAILJET_MESSAGE_API sample_auth None
           (world_of unreachable None)).
  left. reflexivity.
Defined.

(** The listing of a provider that serves [recs], whatever the world's
    other parts are. *)
Lemma get_mailjet_data_list_serves fuel api auth params recs w :
  serves (remote w) api auth (default ∅ params) recs →
  (num_pages (length recs) ≤ fuel)%nat →
  get_mailjet_data_list fuel api auth params w =
    (Ret (Some recs),
     with_calls
       (probe_call api auth (default ∅ params)
          :: (page_call api auth (default ∅ params) <$> page_offsets (length recs)))
       w).
Proof.
  intros Hsrv Hfuel.
  destruct (Hsrv) as [Hprobe _]. destruct (Hprobe (calls w)) as [d Hd].
  rewrite (probe_succeeds _ _ _ _ _ _ Hd).
  pose proof (fetch_pages_serves api auth (default ∅ params) recs fuel 0
                (with_calls [probe_call api auth (default ∅ params)] w)) as Hloop.
  rewrite Nat.sub_0_r in Hloop.
  change (take 0 recs) with (@nil record) in Hloop.
  change (Z.of_nat 0) with 0 in Hloop.
  rewrite Hloop; [| done | lia | done].
  by rewrite with_calls_app.
Qed.

(** The fetcher, read off the reply to its count probe. *)
Lemma get_mailjet_data_list_unfold fuel api auth params w :
  get_mailjet_data_list fuel api auth params w =
    match remote w (calls w) (probe_call api auth (default ∅ params)) with
    | Response _ (Body (Some n) _) =>
        match fetch_pages fuel api auth (default ∅ params) n 0 []
                (with_call (probe_call api auth (default ∅ params)) w) with
        | (Ret data, w') => (Ret (Some data), w')
        | (Raise e, w') => (Raise e, w')
        | (OutOfFuel, w') => (OutOfFuel, w')
        end
    | r =>
        (Ret None,
         with_log
           {| lvl := ERROR; msg := "Error fetching count from API %s: %s";
              args := [api;
                       match r with
                       | ConnectionFailed => "RequestException"
                       | Response _ Garbage => "JSONDecodeError"
                       | Response _ (Body _ _) => "Count"
                       end] |}
           (with_call (probe_call api auth (default ∅ params)) w))
    end.
Proof.
  unfold get_mailjet_data_list, probe_call. cbv zeta.
  unfold try_except, bind, requests_get.
  by destruct (remote w (calls w) _) as [|code [|[n|] d]].
Qed.

(** The page loop does not look at the HTTP status. *)
Lemma fetch_pages_recode f fuel api auth params count :
  ∀ offset data w,
    fetch_pages fuel api auth params count offset data
      (set_remote (recode f (remote w)) w)
    = (fst (fetch_pages fuel api auth params count offset data w),
       set_remote (recode f (remote w))
         (snd (fetch_pages fuel api auth params count offset data w))).
Proof.
  induction fuel as [|fuel IH]; intros offset data w; [done|].
  cbn [fetch_pages].
  unfold bind, requests_get, recode, json_loads, getitem, ret, raise.
  cbn [remote calls set_remote].
  destruct (remote w (calls w) _) as [|code body]; [done|].
  cbn [fst snd]. destruct body as [|n d]; [done|].
  destruct n as [n|]; [|done]. destruct d as [d|]; [|done].
  cbn [fst snd]. destruct (_ || _); [done|].
  apply (IH _ _ (with_call _ w)).
Qed.

(** The fetcher does not look at the HTTP status: with every status code
    of the provider replaced, it makes the same requests, logs the same
    lines and gives the same result. *)
Theorem status_code_ignored (f : Z → Z) (fuel : nat) (api : string)
    (auth : HTTPBasicAuth) (params : option (gmap string val)) (w : world) :
  get_mailjet_data_list fuel api auth params (set_remote (recode f (remote w)) w)
  = (fst (get_mailjet_data_list fuel api auth params w),
     set_remote (recode f (remote w))
       (snd (get_mailjet_data_list fuel api auth params w))).
Proof.
  rewrite !get_mailjet_data_list_unfold. cbn [remote calls set_remote].
  unfold recode at 1.
  destruct (remote w (calls w) _) as [|code [|[n|] d]]; try reflexivity.
  change (with_call ?c (set_remote (recode f (remote w)) w))
    with (set_remote (recode f (remote (with_call c w))) (with_call c w)).
  rewrite fetch_pages_recode.
  by destruct (fetch_pages _ _ _ _ _ _ _ _) as [[?|?|] ?].
Qed.

(** ** The credential resolver *)

(** A loop that sets one directory entry per record leaves, under each
    name, the entry of the last record that carries the name. *)
Lemma directory_fold (body : list (val * dir_entry) → record → M (list (val * dir_entry)))
    (l : list record) :
  (∀ acc (sub : record) w, key_record sub →
     ∃ n e, sub !! "Name" = Some n ∧ entry_of sub = Some e ∧
            body acc sub w = (Ret (alist_set n e acc), w)) →
  Forall key_record l →
  ∀ acc w, ∃ d,
    for_each body l acc w = (Ret d, w) ∧
    ∀ n, alist_get n d =
           match last (filter (λ r : record, r !! "Name" = Some n) l) with
           | Some r => entry_of r
           | None => alist_get n acc
           end.
Proof.
  intros Hbody. induction 1 as [|r l Hr _ IH]; intros acc w.
  - exists acc. split; [done|]. intros n. reflexivity.
  - rewrite for_each_cons.
    destruct (Hbody acc r w Hr) as (n0 & e0 & Hn0 & He0 & ->).
    destruct (IH (alist_set n0 e0 acc) w) as (d & -> & Hd).
    exists d. split; [done|]. intros n. rewrite Hd, filter_cons, Hn0.
    destruct (decide (Some n0 = Some n)) as [[= ->]|Hne].
    + rewrite last_cons.
      destruct (last (filter _ l)); [done|].
      by rewrite alist_get_set, decide_True.
    + destruct (last (filter _ l)); [done|].
      rewrite alist_get_set, decide_False; [done|congruence].
Qed.

Lemma get_subaccount_data_unfold fuel auth w :
  get_subaccount_data fuel auth w =
    match get_mailjet_data_list fuel MAILJET_APIKEY_API auth None w with
    | (Ret None, w') =>
        (Ret None,
         with_log {| lvl := ERROR; msg := "Error fetching subaccount data";
                     args := [] |} w')
    | (Ret (Some l), w') =>
        match for_each
                (λ acc (sub : record),
                   n <- getitem "Name" (sub !! "Name") ;;
                   i <- getitem "ID" (sub !! "ID") ;;
                   k <- getitem "APIKey" (sub !! "APIKey") ;;
                   s <- getitem "SecretKey" (sub !! "SecretKey") ;;
                   ret (alist_set n {| de_id := i; de_api_id := k;
                                       de_api_secret := s |} acc))
                l [] w' with
        | (Ret d, w'') => (Ret (Some d), w'')
        | (Raise e, w'') => (Raise e, w'')
        | (OutOfFuel, w'') => (OutOfFuel, w'')
        end
    | (Raise e, w') => (Raise e, w')
    | (OutOfFuel, w') => (OutOfFuel, w')
    end.
Proof.
  unfold get_subaccount_data, bind at 1.
  by destruct (get_mailjet_data_list _ _ _ _ _) as [[[l|]|e|] w'].
Qed.

(** Against a provider that serves the key listing [keys], all of whose
    records carry [Name], [ID], [APIKey] and [SecretKey], the resolver
    returns a directory in which each name has the id and keys of the
    last record listed under that name. *)
Theorem directory_lookup (fuel : nat) (auth : HTTPBasicAuth)
    (keys : list record) (w : world) :
  serves (remote w) MAILJET_APIKEY_API auth ∅ keys →
  (num_pages (length keys) ≤ fuel)%nat →
  Forall key_record keys →
  ∃ d,
    get_subaccount_data fuel auth w =
      (Ret (Some d),
       with_calls
         (probe_call MAILJET_APIKEY_API auth ∅
            :: (page_call MAILJET_APIKEY_API auth ∅ <$> page_offsets (length keys)))
         w)
    ∧ ∀ n, alist_get n d =
        last (filter (λ r : record, r !! "Name" = Some n) keys) ≫= entry_of.
Proof.
  intros Hsrv Hfuel Hkeys.
  rewrite get_subaccount_data_unfold.
  rewrite (get_mailjet_data_list_serves fuel _ auth None keys w Hsrv Hfuel).
  match goal with
  | |- context [for_each ?body keys [] ?w1] =>
      destruct (directory_fold body keys) with (acc := @nil (val * dir_entry))
        (w := w1) as (d & -> & Hd)
  end.
  - intros acc sub w0 ([n Hn] & [i Hi] & [k Hk] & [s Hs]).
    exists n, {| de_id := i; de_api_id := k; de_api_secret := s |}.
    unfold entry_of. rewrite Hn, Hi, Hk, Hs. done.
  - exact Hkeys.
  - exists d. split; [done|]. intros n. rewrite Hd.
    by destruct (last _).
Qed.

Lemma directory_lookup_witness :
  ∃ d,
    fst (get_subaccount_data 3 sample_auth
           (world_of (paged_server sample_keys) None)) = Ret (Some d)
    ∧ alist_get (VStr "alpha") d =
        Some {| de_id := VInt 7; de_api_id := VStr "k"; de_api_secret := VStr "s" |}.
Proof.
  destruct (directory_lookup 3 sample_auth sample_keys
              (world_of (paged_server sample_keys) None)) as (d & Hrun & Hd).
  - apply paged_server_serves.
  - vm_compute. lia.
  - repeat constructor; by eexists.
  - exists d. split; [by rewrite Hrun|]. rewrite Hd. reflexivity.
Defined.

(** A record of the key listing that lacks one of the four keys makes
    the resolver raise [KeyError]; nothing catches it. *)
Theorem directory_record_incomplete (fuel : nat) (auth : HTTPBasicAuth)
    (keys : list record) (w : world) (r : record) :
  serves (remote w) MAILJET_APIKEY_API auth ∅ keys →
  (num_pages (length keys) ≤ fuel)%nat →
  r ∈ keys →
  ¬ key_record r →
  ∃ k, k ∈ ["Name"; "ID"; "APIKey"; "SecretKey"] ∧
       fst (get_subaccount_data fuel auth w) = Raise (KeyError k).
Proof.
  intros Hsrv Hfuel Hr Hbad.
  rewrite get_subaccount_data_unfold.
  rewrite (get_mailjet_data_list_serves fuel _ auth None keys w Hsrv Hfuel).
  match goal with
  | |- context [for_each ?body keys [] ?w1] =>
      destruct (for_each_first_failure body (λ r, ¬ key_record r)
                  (λ e, ∃ k, k ∈ ["Name"; "ID"; "APIKey"; "SecretKey"]
                             ∧ e = KeyError k) keys)
        with (s := @nil (val * dir_entry)) (w := w1) as (e & (k & Hk & ->) & ->)
  end.
  - intros acc sub w0 Hsub. unfold bind, getitem, ret, raise.
    destruct (sub !! "Name") as [n|] eqn:En;
      [|eexists; split; [exists "Name"; split; [set_solver|done]|done]].
    destruct (sub !! "ID") as [i|] eqn:Ei;
      [|eexists; split; [exists "ID"; split; [set_solver|done]|done]].
    destruct (sub !! "APIKey") as [k|] eqn:Ek;
      [|eexists; split; [exists "APIKey"; split; [set_solver|done]|done]].
    destruct (sub !! "SecretKey") as [s|] eqn:Es;
      [|eexists; split; [exists "SecretKey"; split; [set_solver|done]|done]].
    destruct Hsub. unfold key_record. rewrite En, Ei, Ek, Es. by repeat split.
  - intros acc sub w0. unfold bind, getitem, ret, raise.
    destruct (sub !! "Name") as [n|];
      [|right; eexists; split; [exists "Name"; split; [set_solver|done]|done]].
    destruct (sub !! "ID") as [i|];
      [|right; eexists; split; [exists "ID"; split; [set_solver|done]|done]].
    destruct (sub !! "APIKey") as [k|];
      [|right; eexists; split; [exists "APIKey"; split; [set_solver|done]|done]].
    destruct (sub !! "SecretKey") as [s|];
      [|right; eexists; split; [exists "SecretKey"; split; [set_solver|done]|done]].
    left. by eexists.
  - by exists r.
  - by exists k.
Qed.

Lemma directory_record_incomplete_witness :
  ∃ k, fst (get_subaccount_data 3 sample_auth
              (world_of (paged_server [key_without_id]) None))
       = Raise (KeyError k).
Proof.
  destruct (directory_record_incomplete 3 sample_auth
              [key_without_id]
              (world_of (paged_server [key_without_id]) None)
              key_without_id) as (k & _ & Hk).
  - apply paged_server_serves.
  - vm_compute. lia.
  - apply list_elem_of_singleton. reflexivity.
  - intros (_ & [i Hi] & _). vm_compute in Hi. discriminate.
  - by exists k.
Defined.

(** ** Validation *)

Lemma alist_get_prod_map {K V} `{EqDecision K} (f : V → V) (k : K)
    (d : list (K * V)) :
  alist_get k (prod_map id f <$> d) = f <$> alist_get k d.
Proof.
  induction d as [|[k0 v0] d IH]; [done|]. rewrite fmap_cons. simpl.
  destruct (decide (k = k0)) as [->|]; [done|apply IH].
Qed.

Lemma validate_profile_step acc n p w :
  ∃ w',
    validate_profile acc (n, p) w =
      (Ret (acc ++ [(n, validated_profile p)]), w')
    ∧ calls w' = calls w.
Proof.
  unfold validate_profile, validated_profile.
  destruct (decide (profile_complete p)) as [([t Et] & [s Es] & [e Ee] & [f Ef])|Hc].
  - rewrite Et, Es, Ee, Ef. by eexists.
  - destruct (pr_template_id p) as [t|] eqn:Et; [|by eexists].
    destruct (pr_subject p) as [s|] eqn:Es; [|by eexists].
    destruct (pr_from_email p) as [e|] eqn:Ee; [|by eexists].
    destruct (pr_from_name p) as [f|] eqn:Ef; [|by eexists].
    destruct Hc. unfold profile_complete. rewrite Et, Es, Ee, Ef.
    repeat split; by eexists.
Qed.

(** The profile loop, as a map: a complete profile gets [valid], the
    others are left as they are. *)
Lemma validate_profiles_map ps :
  ∀ acc w, ∃ w',
    for_each validate_profile ps acc w =
      (Ret (acc ++ (prod_map id validated_profile <$> ps)), w')
    ∧ calls w' = calls w.
Proof.
  induction ps as [|[n p] ps IH]; intros acc w.
  - exists w. by rewrite app_nil_r.
  - rewrite for_each_cons.
    destruct (validate_profile_step acc n p w) as (w1 & -> & Hc1).
    destruct (IH (acc ++ [(n, validated_profile p)]) w1) as (w' & -> & Hc).
    exists w'. rewrite fmap_cons, <- app_assoc. split; [done|congruence].
Qed.

(** The profile validation never raises and makes no request; it keeps
    the names and their order; and among profiles that do not come with
    a [valid] key of their own, it marks valid exactly those that have
    [template_id], [subject], [from_email] and [from_name]. *)
Theorem profile_validation (ps : list (string * profile)) (w : world) :
  Forall (λ np : string * profile, default false (pr_valid np.2) = false) ps →
  ∃ ps',
    fst (for_each validate_profile ps [] w) = Ret ps' ∧
    calls (snd (for_each validate_profile ps [] w)) = calls w ∧
    ps'.*1 = ps.*1 ∧
    ∀ name p', alist_get name ps' = Some p' →
      (default false (pr_valid p') = true ↔ profile_complete p').
Proof.
  intros Hfresh.
  destruct (validate_profiles_map ps [] w) as (w' & Hrun & Hcalls).
  rewrite Hrun. eexists. split; [reflexivity|]. split; [exact Hcalls|].
  split.
  { rewrite app_nil_l, <- list_fmap_compose. by apply list_fmap_ext; intros ? []. }
  intros name p'. rewrite app_nil_l, alist_get_prod_map.
  destruct (alist_get name ps) as [p|] eqn:Ep; [|done].
  intros [= <-]. unfold validated_profile.
  assert (default false (pr_valid p) = false) as Hp.
  { apply alist_get_elem_of in Ep. rewrite Forall_forall in Hfresh.
    apply (Hfresh _ Ep). }
  destruct (decide (profile_complete p)) as [Hc|Hc].
  - split; [intros _|done]. exact Hc.
  - rewrite Hp. split; [done|]. intros; done.
Qed.

Lemma profile_validation_witness :
  ∃ ps',
    fst (for_each validate_profile [("default", sample_profile)] []
           (world_of unreachable None)) = Ret ps'
    ∧ (∀ p', alist_get "default" ps' = Some p' →
             default false (pr_valid p') = true).
Proof.
  destruct (profile_validation [("default", sample_profile)]
              (world_of unreachable None)) as (ps' & Hrun & _ & _ & Hvalid).
  - repeat constructor.
  - exists ps'. split; [exact Hrun|]. intros p' Hp'.
    apply (Hvalid "default" p' Hp').
    injection Hrun as <-. injection Hp' as <-.
    repeat split; by eexists.
Defined.

Lemma check_recipients name rs :
  ∀ inv w, ∃ w',
    for_each (check_recipient name) rs inv w =
      (Ret (inv || bool_decide (¬ Forall recipient_complete rs)), w')
    ∧ calls w' = calls w.
Proof.
  induction rs as [|r rs IH]; intros inv w.
  - exists w. split; [|done].
    rewrite bool_decide_false; [by rewrite orb_false_r|]. intros Hn. by apply Hn.
  - rewrite for_each_cons. unfold check_recipient at 1.
    destruct (to_email r) as [e|] eqn:Ee; simpl.
    + destruct (to_name r) as [n|] eqn:En; simpl.
      * destruct (IH inv w) as (w' & -> & Hc). exists w'. split; [|done].
        do 3 f_equal. apply bool_decide_ext. rewrite Forall_cons.
        assert (recipient_complete r) by (split; by eexists).
        split; [intros Hn [_ Hall]; by apply Hn | intros Hn Hall; apply Hn; by split].
      * unfold bind, _LOGGER, ret. cbn [fst snd].
        match goal with
        | |- context [for_each _ rs true ?w1] =>
            destruct (IH true w1) as (w' & -> & Hc)
        end.
        exists w'. split; [|done].
        rewrite (bool_decide_true (¬ Forall recipient_complete (r :: rs)));
          [by rewrite orb_true_r|].
        rewrite Forall_cons.
        intros [(_ & [? Hn]) _]. congruence.
    + unfold bind, _LOGGER, ret. cbn [fst snd].
      match goal with
      | |- context [for_each _ rs true ?w1] =>
          destruct (IH true w1) as (w' & -> & Hc)
      end.
      exists w'. split; [|done].
      rewrite (bool_decide_true (¬ Forall recipient_complete (r :: rs)));
        [by rewrite orb_true_r|].
      rewrite Forall_cons.
      intros [([? He] & _) _]. congruence.
Qed.

(** One pass of the validation loop over an entry that does not come
    with a [valid] key of its own. *)
Lemma validate_subaccount_spec ps days acc sa w :
  (∀ name p, alist_get name ps = Some p →
             default false (pr_valid p) = true → profile_complete p) →
  default false (sa_valid sa) = false →
  ∃ sa' w',
    validate_subaccount ps days acc sa w = (Ret (acc ++ [sa']), w') ∧
    calls w' = calls w ∧
    sa_name sa' = sa_name sa ∧
    (default false (sa_valid sa') = true ↔ validatable ps sa) ∧
    (default false (sa_valid sa') = true → ready sa').
Proof.
  intros Hps Hfresh. unfold validate_subaccount.
  destruct (sa_name sa) as [name|] eqn:En.
  2:{ exists sa. eexists. split; [reflexivity|]. split; [done|]. split; [done|].
      rewrite Hfresh. split; [split; [done|]|done].
      intros (? & ? & ? & ? & Hn & _). congruence. }
  destruct (sa_profile sa) as [pname|] eqn:Ep.
  2:{ exists sa. eexists. split; [reflexivity|]. split; [done|]. split; [done|].
      rewrite Hfresh. split; [split; [done|]|done].
      intros (? & ? & ? & ? & _ & Hn & _). congruence. }
  destruct (alist_get pname ps) as [p|] eqn:Eps.
  2:{ exists sa. eexists. split; [reflexivity|]. split; [done|]. split; [done|].
      rewrite Hfresh. split; [split; [done|]|done].
      intros (? & ? & ? & ? & _ & Hn & Hp & _). congruence. }
  destruct (default false (pr_valid p)) eqn:Ev; simpl.
  2:{ exists sa. eexists. split; [reflexivity|]. split; [done|]. split; [done|].
      rewrite Hfresh. split; [split; [done|]|done].
      intros (? & ? & ? & ? & _ & Hn & Hp & Hv & _). congruence. }
  destruct (sa_recipients sa) as [rs|] eqn:Er.
  2:{ eexists. eexists. split; [reflexivity|]. split; [done|]. split; [done|].
      simpl. rewrite Hfresh. split; [split; [done|]|done].
      intros (? & ? & ? & ? & _ & _ & _ & _ & Hn & _). congruence. }
  unfold bind.
  destruct (check_recipients name rs false w) as (w' & -> & Hc).
  rewrite orb_false_l.
  destruct (decide (Forall recipient_complete rs)) as [Hrs|Hrs].
  - rewrite bool_decide_false by (intros Hn; by apply Hn).
    eexists. eexists. split; [reflexivity|]. split; [done|]. split; [done|].
    simpl. split; [split; [intros _|done]|intros _].
    + by exists name, pname, p, rs.
    + exists name, pname, p, (default days (sa_report_days sa)), rs.
      repeat split; try done; by apply (Hps pname).
  - rewrite bool_decide_true by done.
    eexists. eexists. split; [reflexivity|]. split; [done|]. split; [done|].
    simpl. rewrite Hfresh. split; [split; [done|]|done].
    intros (? & ? & ? & rs' & _ & _ & _ & _ & Hr' & Hall). congruence.
Qed.

(** The validation loop never raises and makes no request.  Among
    entries that do not come with a [valid] key of their own, it marks
    valid exactly those with a name, an existing valid profile and
    recipients that all have [to_email] and [to_name]; and every entry it
    marks valid has what the processing loop and the dispatcher read from
    it: name, [report_days], recipients and a complete
    [profile_details]. *)
Theorem subaccount_validation (ps : list (string * profile)) (days : string)
    (sas : list subaccount) (w : world) :
  (∀ name p, alist_get name ps = Some p →
             default false (pr_valid p) = true → profile_complete p) →
  Forall (λ sa, default false (sa_valid sa) = false) sas →
  ∃ sas',
    fst (for_each (validate_subaccount ps days) sas [] w) = Ret sas' ∧
    calls (snd (for_each (validate_subaccount ps days) sas [] w)) = calls w ∧
    Forall2 (λ sa sa',
               sa_name sa' = sa_name sa ∧
               (default false (sa_valid sa') = true ↔ validatable ps sa) ∧
               (default false (sa_valid sa') = true → ready sa'))
      sas sas'.
Proof.
  intros Hps Hfresh.
  assert (∀ acc w, ∃ sas' w',
            for_each (validate_subaccount ps days) sas acc w
              = (Ret (acc ++ sas'), w') ∧ calls w' = calls w ∧
            Forall2 (λ sa sa',
               sa_name sa' = sa_name sa ∧
               (default false (sa_valid sa') = true ↔ validatable ps sa) ∧
               (default false (sa_valid sa') = true → ready sa')) sas sas')
    as Hloop.
  { induction Hfresh as [|sa sas Hsa _ IH]; intros acc w0.
    - exists [], w0. rewrite app_nil_r. by repeat split.
    - rewrite for_each_cons.
      destruct (validate_subaccount_spec ps days acc sa w0 Hps Hsa)
        as (sa' & w1 & -> & Hc1 & Hspec).
      destruct (IH (acc ++ [sa']) w1) as (sas' & w' & -> & Hc & Hall).
      exists (sa' :: sas'), w'. rewrite <- app_assoc.
      split; [done|]. split; [congruence|]. by constructor. }
  destruct (Hloop [] w) as (sas' & w' & -> & Hc & Hall). by exists sas'.
Qed.

Lemma subaccount_validation_witness :
  ∃ sas',
    fst (for_each
           (validate_subaccount [("default", set_profile_valid sample_profile)]
              "01234")
           [sample_subaccount (Some "alpha"); sample_subaccount None] []
           (world_of unreachable None)) = Ret sas'
    ∧ (default false <$> (sa_valid <$> sas')) = [true; false].
Proof.
  destruct (subaccount_validation
              [("default", set_profile_valid sample_profile)] "01234"
              [sample_subaccount (Some "alpha"); sample_subaccount None]
              (world_of unreachable None)) as (sas' & Hrun & _ & _).
  - intros name p Hp _. simpl in Hp. destruct (decide (name = "default")); [|done].
    injection Hp as <-. repeat split; by eexists.
  - repeat constructor.
  - exists sas'. split; [exact Hrun|]. injection Hrun as <-. reflexivity.
Defined.

(** ** Rendering *)







Section RenderingTotal.
Context `{PyLib}.






End RenderingTotal.


(** ** The dispatcher on a validated subaccount *)

Section DispatcherReady.
Context `{PyLib}.




End DispatcherReady.


(** ** The requests of a run *)

Lemma emits_nil {A} (Q : call → Prop) (m : M A) :
  (∀ w, calls (snd (m w)) = calls w) → emits Q m.
Proof. intros Hm w. exists []. by rewrite app_nil_r. Qed.

Lemma emits_ret {A} Q (a : A) : emits Q (ret a).
Proof. by apply emits_nil. Qed.

Lemma emits_raise {A} Q e : emits Q (@raise A e).
Proof. by apply emits_nil. Qed.

Lemma emits_out_of_fuel {A} Q : emits Q (@out_of_fuel A).
Proof. by apply emits_nil. Qed.

Lemma emits_getitem {A} Q key (o : option A) : emits Q (getitem key o).
Proof. destruct o; [apply emits_ret | apply emits_raise]. Qed.

Lemma emits_json_loads Q c : emits Q (json_loads c).
Proof. destruct c; [apply emits_raise | apply emits_ret]. Qed.

Lemma emits_LOGGER Q l m a : emits Q (_LOGGER l m a).
Proof. by apply emits_nil. Qed.

Lemma emits_read_state_file Q : emits Q read_state_file.
Proof.
  apply emits_nil. intros w. unfold read_state_file.
  by destruct (sync_file w) as [[| |]|].
Qed.

Lemma emits_requests_get (Q : call → Prop) api auth q :
  Q (Get api auth q) → emits Q (requests_get api auth q).
Proof.
  intros HQ w. exists [Get api auth q]. unfold requests_get.
  destruct (remote w _ _); (split; [done|by constructor]).
Qed.

Lemma emits_requests_post (Q : call → Prop) api auth hs body :
  Q (Post api auth hs body) → emits Q (requests_post api auth hs body).
Proof.
  intros HQ w. exists [Post api auth hs body]. unfold requests_post.
  destruct (remote w _ _); (split; [done|by constructor]).
Qed.

(** The continuation only matters on the values that [m] returns. *)
Lemma emits_bind {A B} Q (m : M A) (k : A → M B) :
  emits Q m → (∀ a, (∃ w, fst (m w) = Ret a) → emits Q (k a)) →
  emits Q (bind m k).
Proof.
  intros Hm Hk w. destruct (Hm w) as (cs & Hcs & HQ). unfold bind.
  destruct (m w) as [[a|x|] w1] eqn:E; simpl in *; [|by exists cs..].
  destruct (Hk a) with (w := w1) as (cs' & Hcs' & HQ').
  { exists w. by rewrite E. }
  exists (cs ++ cs'). rewrite Hcs', Hcs, <- app_assoc.
  split; [done|by apply Forall_app].
Qed.

Lemma emits_try_except {A} Q (body : M A) caught handler :
  emits Q body → (∀ e, emits Q (handler e)) →
  emits Q (try_except body caught handler).
Proof.
  intros Hm Hk w. destruct (Hm w) as (cs & Hcs & HQ). unfold try_except.
  destruct (body w) as [[a|x|] w1]; simpl in *; [by exists cs| |by exists cs].
  destruct (caught x); [|by exists cs].
  destruct (Hk x w1) as (cs' & Hcs' & HQ').
  exists (cs ++ cs'). rewrite Hcs', Hcs, <- app_assoc.
  split; [done|by apply Forall_app].
Qed.

Lemma emits_for_each {A S} Q (body : S → A → M S) l :
  (∀ s a, emits Q (body s a)) → ∀ s, emits Q (for_each body l s).
Proof.
  intros Hbody. induction l as [|a l IH]; intros s; simpl.
  - apply emits_ret.
  - apply emits_bind; [apply Hbody | intros; apply IH].
Qed.

Create HintDb emits.
#[local] Hint Resolve emits_ret emits_raise emits_out_of_fuel emits_getitem
  emits_json_loads emits_LOGGER emits_read_state_file : emits.

Ltac emits_walk :=
  repeat first
    [ progress cbv zeta
    | solve [auto with emits]
    | apply emits_bind; [|intros ? _]
    | apply emits_try_except; [|intros ?]
    | apply emits_for_each; intros ? ?
    | match goal with
      | |- emits _ (match ?x with _ => _ end) => destruct x
      | |- emits _ (let '(_, _) := ?x in _) => destruct x
      end ].

Lemma emits_fetch_pages (Q : call → Prop) fuel api auth params count :
  (∀ q, Q (Get api auth q)) →
  ∀ offset data, emits Q (fetch_pages fuel api auth params count offset data).
Proof.
  intros HQ. induction fuel as [|fuel IH]; intros offset data; simpl.
  - apply emits_out_of_fuel.
  - apply emits_bind; [by apply emits_requests_get|]. intros ? _. emits_walk.
Qed.

Lemma emits_get_mailjet_data_list (Q : call → Prop) fuel api auth params :
  (∀ q, Q (Get api auth q)) →
  emits Q (get_mailjet_data_list fuel api auth params).
Proof.
  intros HQ. unfold get_mailjet_data_list. cbv zeta.
  apply emits_bind.
  - apply emits_try_except; [|intros; emits_walk].
    apply emits_bind; [by apply emits_requests_get|]. intros ? _. emits_walk.
  - intros [count|] _; [|apply emits_ret].
    apply emits_bind; [by apply emits_fetch_pages|]. intros ? _. apply emits_ret.
Qed.

Lemma emits_get_subaccount_data (Q : call → Prop) fuel auth :
  (∀ q, Q (Get MAILJET_APIKEY_API auth q)) →
  emits Q (get_subaccount_data fuel auth).
Proof.
  intros HQ. unfold get_subaccount_data.
  apply emits_bind; [by apply emits_get_mailjet_data_list|]. intros ? _.
  emits_walk.
Qed.

Lemma emits_validate_profile Q acc entry : emits Q (validate_profile acc entry).
Proof. unfold validate_profile. emits_walk. Qed.

Lemma emits_validate_subaccount Q ps days acc sa :
  emits Q (validate_subaccount ps days acc sa).
Proof. unfold validate_subaccount, check_recipient. emits_walk. Qed.

#[local] Hint Resolve emits_validate_profile emits_validate_subaccount : emits.

Section RunCalls.
Context `{PyLib}.

Lemma emits_gen_bounce_data_html Q cfg fmt details :
  emits Q (gen_bounce_data_html cfg fmt details).
Proof.
  unfold gen_bounce_data_html, gen_state_table, gen_row, gen_cell. emits_walk.
Qed.

Lemma emits_process_messages Q fields data :
  emits Q (process_messages fields data).
Proof. unfold process_messages, count_message. emits_walk. Qed.

#[local] Hint Resolve emits_gen_bounce_data_html emits_process_messages : emits.

Lemma emits_send_report (Q : call → Prop) cfg sa stats details last_ts
    current_ts auth :
  (∀ ms, length ms = 1%nat →
         Q (Post MAILJET_MAIL_SEND_API auth
              {["Content-Type" := "application/json"]} ms)) →
  emits Q (send_report cfg sa stats details last_ts current_ts auth).
Proof.
  intros HQ. unfold send_report. cbv zeta.
  repeat first
    [ solve [auto with emits]
    | apply emits_bind; [|intros ? _]
    | apply emits_for_each; intros ? ?
    | match goal with
      | |- emits _ (if ?x then _ else _) => destruct x
      end ].
  apply emits_try_except; [|intros; emits_walk].
  apply emits_bind; [by apply emits_requests_post, HQ|]. intros ? _. emits_walk.
Qed.

Lemma emits_gather_report (Q : call → Prop) fuel ps dir day now dflt st sa :
  (∀ a q, Q (Get MAILJET_MESSAGE_API a q)) →
  emits Q (gather_report fuel ps dir day now dflt st sa).
Proof.
  intros Hget. unfold gather_report.
  repeat first
    [ progress cbv zeta
    | solve [auto with emits]
    | solve [apply emits_get_mailjet_data_list; intros; apply Hget]
    | apply emits_bind; [|intros ? _]
    | match goal with
      | |- emits _ (match ?x with _ => _ end) => destruct x
      end ].
Qed.

Lemma emits_process_subaccount (Q : call → Prop) fuel cfg ps dir day now dflt
    auth st sa :
  (∀ a q, Q (Get MAILJET_MESSAGE_API a q)) →
  (∀ ms, length ms = 1%nat →
         Q (Post MAILJET_MAIL_SEND_API auth
              {["Content-Type" := "application/json"]} ms)) →
  emits Q (process_subaccount fuel cfg ps dir day now dflt auth st sa).
Proof.
  intros Hget Hpost. unfold process_subaccount.
  apply emits_bind; [by apply emits_gather_report|].
  intros [j|] _; [|apply emits_ret].
  apply emits_bind; [by apply emits_send_report|]. intros ? _. emits_walk.
Qed.

Lemma emits_startup fuel h : emits (run_call h) (startup fuel h).
Proof.
  unfold startup, run_call, master_of. cbv zeta.
  destruct (MAILJET_APP_ID h) as [i|];
    [|by apply emits_bind; [emits_walk|intros ? [? ?]]].
  destruct (MAILJET_APP_SECRET h) as [s|];
    [|by apply emits_bind; [emits_walk|intros ? [? ?]]].
  apply emits_bind; [apply emits_ret|]. intros creds [w [= <-]].
  repeat first
    [ progress cbv zeta
    | solve [auto with emits]
    | solve [apply emits_get_subaccount_data; intros; left; done]
    | apply emits_bind; [|intros ? _]
    | apply emits_try_except; [|intros ?]
    | apply emits_for_each; intros ? ?
    | match goal with
      | |- emits _ (match ?x with _ => _ end) => destruct x
      end ].
Qed.

Lemma startup_master fuel h w e :
  fst (startup fuel h w) = Ret e → master_of h = Some (re_master_auth e).
Proof.
  unfold master_of, startup. cbv zeta. unfold bind, try_except, read_state_file.
  repeat (case_match; simpl in *; try discriminate).
  all: intros [= <-]; simpl.
  all: unfold ret, raise, _LOGGER in *; simplify_eq; done.
Qed.

(** Every request of a run is a listing of the key directory with the
    master credentials, a listing of messages, or one message posted to
    the send endpoint with the master credentials and a JSON content
    type: reports are never sent with a subaccount's own key. *)
Theorem run_requests (fuel : nat) (h : host) (w : world) :
  ∃ cs, calls (snd (main fuel h w)) = calls w ++ cs ∧ Forall (run_call h) cs.
Proof.
  revert w. change (emits (run_call h) (main fuel h)).
  unfold main. apply emits_bind; [|intros ? _; by apply emits_nil].
  unfold run_reports. apply emits_bind; [apply emits_startup|].
  intros e [w Hw]. apply startup_master in Hw.
  unfold process_reports. apply emits_for_each. intros st sa.
  apply emits_process_subaccount.
  - intros. by right.
  - intros ms Hms. by repeat split.
Qed.

End RunCalls.

(** ** Totals of the aggregation *)

Lemma alist_set_keys {K V} `{EqDecision K} (k : K) (v : V) d :
  (alist_set k v d).*1 = if decide (k ∈ d.*1) then d.*1 else d.*1 ++ [k].
Proof.
  induction d as [|[k0 v0] d IH]; [done|].
  cbn [alist_set]. destruct (decide (k = k0)) as [->|Hne]; rewrite !fmap_cons.
  - cbn [fst]. rewrite decide_True by apply list_elem_of_here. done.
  - rewrite IH. cbn [fst]. destruct (decide (k ∈ d.*1)) as [Hin|Hout].
    + rewrite decide_True by by apply list_elem_of_further. done.
    + rewrite decide_False; [done|]. by intros [?|?]%elem_of_cons.
Qed.

Lemma alist_set_keys_elem_of {K V} `{EqDecision K} (k k' : K) (v : V) d :
  k' ∈ (alist_set k v d).*1 ↔ k' = k ∨ k' ∈ d.*1.
Proof.
  rewrite alist_set_keys. destruct (decide (k ∈ d.*1)) as [Hin|Hout].
  - split; [by right|]. by intros [->|?].
  - rewrite elem_of_app, list_elem_of_singleton. tauto.
Qed.

Lemma alist_set_keys_NoDup {K V} `{EqDecision K} (k : K) (v : V) d :
  NoDup d.*1 → NoDup (alist_set k v d).*1.
Proof.
  intros Hd. rewrite alist_set_keys. destruct (decide (k ∈ d.*1)); [done|].
  apply NoDup_app. split; [done|]. split; [|apply NoDup_singleton].
  by intros x Hx ->%list_elem_of_singleton.
Qed.

Lemma alist_set_Forall {K V} `{EqDecision K} (P : K * V → Prop) k v d :
  Forall P d → P (k, v) → Forall P (alist_set k v d).
Proof.
  intros Hd Hkv. induction Hd as [|[k0 v0] d H0 Hd IH]; simpl.
  - by constructor.
  - destruct (decide (k = k0)); by constructor.
Qed.

Lemma total_count_set k v stats :
  total_count (alist_set k v stats) =
  total_count stats - default 0 (alist_get k stats) + v.
Proof.
  induction stats as [|[k0 v0] stats IH]; simpl; [lia|].
  destruct (decide (k = k0)) as [->|Hne]; simpl; [lia|].
  fold (total_count (alist_set k v stats)) (total_count stats). rewrite IH. lia.
Qed.

Lemma total_rows_set k (x : record) details :
  total_rows (alist_set k (default [] (alist_get k details) ++ [x]) details) =
  S (total_rows details).
Proof.
  induction details as [|[k0 v0] details IH]; simpl; [done|].
  destruct (decide (k = k0)) as [->|Hne]; simpl.
  - rewrite length_app. simpl. lia.
  - fold (total_rows details). rewrite <- Nat.add_succ_r, <- IH. done.
Qed.

Lemma count_messages_totals fields data :
  Forall (λ r : record, is_Some (r !! "Status")) data →
  ∀ d s w,
    NoDup d.*1 → NoDup s.*1 → d.*1 ⊆ s.*1 → Forall (λ kv, 0 < kv.2) s →
    ∃ d' s',
      for_each (count_message fields) data (d, s) w = (Ret (d', s'), w) ∧
      NoDup d'.*1 ∧ NoDup s'.*1 ∧ d'.*1 ⊆ s'.*1 ∧
      Forall (λ kv, 0 < kv.2) s' ∧
      total_count s' = total_count s + Z.of_nat (length data) ∧
      total_rows d' =
        (total_rows d + length (filter (itemized fields) data))%nat ∧
      ∀ k, k ∈ s'.*1 ↔
           k ∈ s.*1 ∨ ∃ r, r ∈ data ∧ r !! "Status" = Some k.
Proof.
  induction 1 as [|r data [s0 Hs0] _ IH]; intros d s w Hd Hs Hsub Hpos.
  - exists d, s. simpl. repeat split; try done; try lia.
    + by left.
    + intros [?|(r & Hr & _)]; [done|]. by apply elem_of_nil in Hr.
  - rewrite for_each_cons. unfold count_message at 1. rewrite Hs0.
    unfold bind, getitem, ret. cbv zeta.
    assert (0 <= default 0 (alist_get s0 s)) as Hget.
    { destruct (alist_get s0 s) as [n|] eqn:E; simpl; [|lia].
      apply alist_get_elem_of in E.
      eapply Forall_forall in Hpos; [|done]. simpl in Hpos. lia. }
    match goal with
    | |- context [for_each _ data (?d1, ?s1) w] =>
        destruct (IH d1 s1 w)
          as (d' & s' & -> & Hd' & Hs' & Hsub' & Hpos' & Hcount & Hrows & Hkeys)
    end.
    + destruct (decide (s0 ∈ fields)); [by apply alist_set_keys_NoDup|done].
    + by apply alist_set_keys_NoDup.
    + intros k Hk. apply alist_set_keys_elem_of.
      destruct (decide (s0 ∈ fields)); [|right; by apply Hsub].
      apply alist_set_keys_elem_of in Hk as [->|Hk]; [by left|].
      right. by apply Hsub.
    + apply alist_set_Forall; [done|]. simpl. lia.
    + exists d', s'. split; [done|]. repeat split; try done.
      * rewrite Hcount, total_count_set. simpl length. lia.
      * rewrite Hrows. rewrite filter_cons.
        destruct (decide (itemized fields r)) as [(s1 & Hs1 & Hin)|Hno].
        -- assert (s1 = s0) as -> by congruence.
           rewrite decide_True by done. rewrite total_rows_set. simpl. lia.
        -- rewrite decide_False; [done|]. intros Hin. apply Hno. by exists s0.
      * intros Hk. apply Hkeys in Hk as [Hk|(r' & Hr' & Hk)].
        -- apply alist_set_keys_elem_of in Hk as [->|Hk]; [|by left].
           right. exists r. split; [apply list_elem_of_here|done].
        -- right. exists r'. split; [by apply list_elem_of_further|done].
      * intros Hk. apply Hkeys. destruct Hk as [Hk|(r' & Hr' & Hk)].
        -- left. apply alist_set_keys_elem_of. by right.
        -- apply elem_of_cons in Hr' as [->|Hr'].
           ++ left. apply alist_set_keys_elem_of. left. congruence.
           ++ right. by exists r'.
Qed.

(** When every fetched record has a status, the two tables account for
    every record: each status seen has exactly one entry, with a positive
    count, and the counts add up to the number of records; the details
    table has one row per record with an itemised status, under statuses
    that are all in the statistics table. *)
Theorem aggregation_totals (fields : list val) (data : list record) (w : world) :
  Forall (λ r : record, is_Some (r !! "Status")) data →
  ∃ details stats,
    process_messages fields data w = (Ret (details, stats), w) ∧
    NoDup stats.*1 ∧ NoDup details.*1 ∧ details.*1 ⊆ stats.*1 ∧
    Forall (λ kv, 0 < kv.2) stats ∧
    total_count stats = Z.of_nat (length data) ∧
    total_rows details = length (filter (itemized fields) data) ∧
    ∀ k, k ∈ stats.*1 ↔ ∃ r, r ∈ data ∧ r !! "Status" = Some k.
Proof.
  intros Hdata. unfold process_messages.
  destruct (count_messages_totals fields data Hdata [] [] w)
    as (d' & s' & Hrun & Hd & Hs & Hsub & Hpos & Hcount & Hrows & Hkeys);
    [apply NoDup_nil_2..|done|done|].
  exists d', s'. split; [done|]. repeat split; try done.
  - intros Hk. apply Hkeys in Hk as [Hk|Hk]; [|done]. by apply elem_of_nil in Hk.
  - intros Hk. apply Hkeys. by right.
Qed.

Lemma aggregation_totals_witness :
  ∃ details stats,
    process_messages [VStr "bounce"]
      [bounce_event; {["Status" := VStr "sent"]}; {["Status" := VStr "bounce"]}]
      (world_of unreachable None)
    = (Ret (details, stats), world_of unreachable None) ∧
    total_count stats = 3 ∧ total_rows details = 2%nat.
Proof.
  destruct (aggregation_totals [VStr "bounce"]
              [bounce_event; {["Status" := VStr "sent"]}; {["Status" := VStr "bounce"]}]
              (world_of unreachable None))
    as (details & stats & Hrun & _ & _ & _ & _ & Hcount & Hrows & _).
  - repeat constructor; by eexists.
  - exists details, stats. split; [exact Hrun|]. split; [exact Hcount|].
    rewrite Hrows. by vm_compute.
Defined.

(** ** The processing loop *)

Section ProcessingLoop.
Context `{PyLib}.

Lemma passed_over_skipped fuel cfg ps dir day now dflt auth st sa w :
  passed_over dir day sa →
  ∃ line,
    process_subaccount fuel cfg ps dir day now dflt auth st sa w =
      (Ret st, with_log line w).
Proof.
  intros (name & Hname & Hwhy).
  assert (∃ line,
            gather_report fuel ps dir day now dflt st sa w =
              (Ret None, with_log line w)) as [line Hg].
  { unfold gather_report.
    destruct Hwhy as [Hinv|(days & Hv & Hdays & Hwhy)].
    - rewrite Hinv, Hname. by eexists.
    - rewrite Hv, Hdays, Hname. cbn [negb]. rewrite bind_getitem_Some.
      destruct Hwhy as [Hday|Hdir].
      + rewrite Hday. by eexists.
      + destruct (str_in day days); [|by eexists].
        cbn [negb]. rewrite bind_getitem_Some, Hdir. by eexists. }
  exists line. unfold process_subaccount, bind at 1. by rewrite Hg.
Qed.

(** A run over entries that are invalid, not scheduled for today or
    unknown to the key directory asks the provider nothing and leaves
    the in-memory state as it was: each entry costs one log line. *)
Theorem entries_passed_over (fuel : nat) (e : run_env) (sas : list subaccount)
    (st : option (gmap string Z)) (w : world) :
  Forall (passed_over (re_subaccount_data e) (re_day_of_week e)) sas →
  ∃ w',
    process_reports fuel e sas st w = (Ret st, w') ∧
    calls w' = calls w ∧
    length (logged w') = (length (logged w) + length sas)%nat ∧
    sync_file w' = sync_file w ∧ fs_events w' = fs_events w.
Proof.
  intros Hsas. revert w. unfold process_reports.
  induction Hsas as [|sa sas Hsa _ IH]; intros w.
  - exists w. simpl. repeat split; try done; lia.
  - rewrite for_each_cons.
    destruct (passed_over_skipped fuel (re_cfg e) (re_profiles e)
                (re_subaccount_data e) (re_day_of_week e) (re_current_ts e)
                (re_default_last_ts e) (re_master_auth e) st sa w Hsa)
      as [line ->].
    destruct (IH (with_log line w)) as (w' & -> & Hc & Hl & Hf & Hfs).
    exists w'. split; [done|]. rewrite Hc, Hl, Hf, Hfs. simpl.
    rewrite length_app. simpl. repeat split; try done; lia.
Qed.

Lemma process_messages_world fields data :
  ∀ acc w, snd (for_each (count_message fields) data acc w) = w.
Proof.
  induction data as [|r data IH]; intros [d s] w; [done|].
  rewrite for_each_cons. unfold count_message at 1.
  destruct (r !! "Status") as [s0|]; [|done].
  unfold bind, getitem, ret. cbv zeta. apply IH.
Qed.

Lemma bind_ret_l {A B} (a : A) (k : A → M B) w : bind (ret a) k w = k a w.
Proof. reflexivity. Qed.

(** The first half of the loop body for an entry that is due. *)
Lemma gather_report_due fuel ps dir day now dflt m sa name entry p w :
  due ps dir day sa name entry p →
  gather_report fuel ps dir day now dflt (Some m) sa w =
    match get_mailjet_data_list fuel MAILJET_MESSAGE_API (entry_auth entry)
            (Some (window_query (default dflt (m !! py_str (de_id entry))) now))
            w with
    | (Ret (Some data), w1) =>
        match process_messages (default [] (pr_report_in_detail p)) data w1 with
        | (Ret agg, w2) =>
            (Ret (Some {| job_id := py_str (de_id entry);
                          job_last_ts := default dflt (m !! py_str (de_id entry));
                          job_stats := snd agg; job_details := fst agg |}), w2)
        | (Raise x, w2) => (Raise x, w2)
        | (OutOfFuel, w2) => (OutOfFuel, w2)
        end
    | (Ret None, w1) =>
        (Ret None,
         with_log
           {| lvl := ERROR;
              msg := "Error fetching message data for subaccount %s, skipping";
              args := [name] |} w1)
    | (Raise x, w1) => (Raise x, w1)
    | (OutOfFuel, w1) => (OutOfFuel, w1)
    end.
Proof.
  intros (days & pname & Hv & Hdays & Hday & Hname & Hdir & Hp & Hps).
  unfold gather_report.
  rewrite Hv. cbn [negb]. rewrite Hdays, bind_getitem_Some, Hday. cbn [negb].
  rewrite Hname, bind_getitem_Some, Hdir. cbv zeta.
  rewrite bind_ret_l, Hp, bind_getitem_Some, Hps, bind_getitem_Some.
  unfold bind at 1.
  change (get_mailjet_data_list fuel MAILJET_MESSAGE_API _ _)
    with (get_mailjet_data_list fuel MAILJET_MESSAGE_API (entry_auth entry)
            (Some (window_query (default dflt (m !! py_str (de_id entry))) now))).
  by destruct (get_mailjet_data_list _ _ _ _ w) as [[[data|]|x|] w1].
Qed.

Lemma calls_bind_first {A B} (m : M A) (k : A → M B) w c :
  (∃ cs, calls (snd (m w)) = calls w ++ c :: cs) →
  (∀ a, emits (λ _, True) (k a)) →
  ∃ cs, calls (snd (bind m k w)) = calls w ++ c :: cs.
Proof.
  intros [cs Hcs] Hk. unfold bind.
  destruct (m w) as [[a|x|] w1]; simpl in *; [|by exists cs..].
  destruct (Hk a w1) as (cs' & -> & _). rewrite Hcs.
  exists (cs ++ cs'). by rewrite <- app_assoc.
Qed.

Lemma get_mailjet_data_list_first fuel api auth params w :
  ∃ cs, calls (snd (get_mailjet_data_list fuel api auth params w)) =
          calls w ++ probe_call api auth (default ∅ params) :: cs.
Proof.
  rewrite get_mailjet_data_list_unfold.
  destruct (remote w (calls w) _) as [|code [|[n|] d]]; try by exists [].
  destruct (emits_fetch_pages (λ _, True) fuel api auth (default ∅ params) n)
    with (offset := 0) (data := @nil record)
         (w := with_call (probe_call api auth (default ∅ params)) w)
    as (cs & Hcs & _); [done|].
  exists cs.
  destruct (fetch_pages _ _ _ _ _ _ _ _) as [[?|?|] ?]; simpl in *;
    by rewrite Hcs, <- app_assoc.
Qed.

(** For an entry that is due, the loop body first asks the message
    listing, with the subaccount's own key from the directory, for the
    window that starts at the stored watermark of the subaccount id (or,
    without one, [default_max_report_days] before now) and ends now. *)
Theorem fetch_window (fuel : nat) (cfg : config) (ps : list (string * profile))
    (dir : list (val * dir_entry)) (day : string) (now dflt : Z)
    (master : HTTPBasicAuth) (m : gmap string Z) (sa : subaccount)
    (name : string) (entry : dir_entry) (p : profile) (w : world) :
  due ps dir day sa name entry p →
  ∃ cs,
    calls (snd (process_subaccount fuel cfg ps dir day now dflt master
                  (Some m) sa w)) =
    calls w ++
      probe_call MAILJET_MESSAGE_API (entry_auth entry)
        (window_query (default dflt (m !! py_str (de_id entry))) now) :: cs.
Proof.
  intros Hdue. unfold process_subaccount. apply calls_bind_first.
  - rewrite (gather_report_due _ _ _ _ _ _ _ _ _ _ _ _ Hdue).
    destruct (get_mailjet_data_list_first fuel MAILJET_MESSAGE_API
                (entry_auth entry)
                (Some (window_query (default dflt (m !! py_str (de_id entry))) now))
                w) as [cs Hcs].
    change (default ∅ (Some ?q)) with q in Hcs.
    exists cs. rewrite <- Hcs.
    destruct (get_mailjet_data_list _ _ _ _ w) as [[[data|]|x|] w1]; try done.
    pose proof (process_messages_world (default [] (pr_report_in_detail p))
                  data ([], []) w1) as Hsame.
    fold (process_messages (default [] (pr_report_in_detail p)) data) in Hsame.
    destruct (process_messages _ data w1) as [[agg|?|] w2];
      simpl in *; by subst.
  - intros [j|]; [|apply emits_ret].
    apply emits_bind; [by apply emits_send_report|]. intros ? _. emits_walk.
Qed.

(** When the count probe of the message listing fails for an entry that
    is due, the entry is passed over: one request, two error lines, no
    message sent and the state as it was. *)
Theorem message_fetch_failure_skips (fuel : nat) (cfg : config)
    (ps : list (string * profile)) (dir : list (val * dir_entry))
    (day : string) (now dflt : Z) (master : HTTPBasicAuth)
    (m : gmap string Z) (sa : subaccount) (name : string)
    (entry : dir_entry) (p : profile) (w : world) :
  due ps dir day sa name entry p →
  probe_fails
    (remote w (calls w)
       (probe_call MAILJET_MESSAGE_API (entry_auth entry)
          (window_query (default dflt (m !! py_str (de_id entry))) now))) →
  ∃ l1 l2,
    process_subaccount fuel cfg ps dir day now dflt master (Some m) sa w =
      (Ret (Some m),
       with_log l2
         (with_log l1
            (with_call
               (probe_call MAILJET_MESSAGE_API (entry_auth entry)
                  (window_query (default dflt (m !! py_str (de_id entry))) now))
               w))).
Proof.
  intros Hdue Hfail. unfold process_subaccount, bind at 1.
  rewrite (gather_report_due _ _ _ _ _ _ _ _ _ _ _ _ Hdue).
  rewrite get_mailjet_data_list_unfold.
  change (default ∅ (Some ?q)) with q.
  destruct (remote w (calls w) _) as [|code [|[n|] d]]; [| |done|];
    by eexists _, _.
Qed.




End ProcessingLoop.




Lemma due_valid_alpha :
  due [("default", set_profile_valid sample_profile)] sample_directory "2"
    valid_alpha "alpha" alpha_entry (set_profile_valid sample_profile).
Proof. exists "1234567", "default". by repeat split. Qed.

Lemma entries_passed_over_witness :
  ∃ w',
    @process_reports sample_lib 3
      {| re_cfg := sample_config []; re_profiles := [];
         re_subaccount_reports := []; re_subaccount_data := [];
         re_day_of_week := "2"; re_current_ts := 1000;
         re_default_last_ts := 500; re_master_auth := sample_auth;
         re_state := None |}
      [sample_subaccount (Some "alpha"); valid_alpha] None
      (world_of unreachable None) = (Ret None, w') ∧
    calls w' = [] ∧ length (logged w') = 2%nat.
Proof.
  destruct (@entries_passed_over sample_lib 3
              {| re_cfg := sample_config []; re_profiles := [];
                 re_subaccount_reports := []; re_subaccount_data := [];
                 re_day_of_week := "2"; re_current_ts := 1000;
                 re_default_last_ts := 500; re_master_auth := sample_auth;
                 re_state := None |}
              [sample_subaccount (Some "alpha"); valid_alpha] None
              (world_of unreachable None))
    as (w' & Hrun & Hcalls & Hlog & _).
  - constructor; [|constructor; [|constructor]]; exists "alpha"; (split; [done|]).
    + by left.
    + right. exists "1234567". repeat split; try done. by right.
  - by exists w'.
Defined.

Lemma fetch_window_witness :
  ∃ cs,
    calls (snd (@process_subaccount sample_lib 3 (sample_config [])
                  [("default", set_profile_valid sample_profile)]
                  sample_directory "2" 1000 500 sample_auth
                  (Some {["7" := 800]}) valid_alpha
                  (world_of unreachable None))) =
    probe_call MAILJET_MESSAGE_API (entry_auth alpha_entry)
      (window_query 800 1000) :: cs.
Proof.
  destruct (@fetch_window sample_lib 3 (sample_config [])
              [("default", set_profile_valid sample_profile)] sample_directory
              "2" 1000 500 sample_auth {["7" := 800]} valid_alpha "alpha"
              alpha_entry (set_profile_valid sample_profile)
              (world_of unreachable None)) as [cs Hcs].
  - apply due_valid_alpha.
  - exists cs. rewrite Hcs.
    replace (default 500 (({["7" := 800]} : gmap string Z)
                            !! py_str (de_id alpha_entry)))
      with 800 by (by vm_compute).
    reflexivity.
Defined.

Lemma message_fetch_failure_skips_witness :
  ∃ l1 l2,
    @process_subaccount sample_lib 3 (sample_config [])
      [("default", set_profile_valid sample_profile)]
      sample_directory "2" 1000 500 sample_auth (Some ∅) valid_alpha
      (world_of unreachable None) =
      (Ret (Some ∅),
       with_log l2
         (with_log l1
            (with_call
               (probe_call MAILJET_MESSAGE_API (entry_auth alpha_entry)
                  (window_query 500 1000))
               (world_of unreachable None)))).
Proof.
  destruct (@message_fetch_failure_skips sample_lib 3 (sample_config [])
              [("default", set_profile_valid sample_profile)] sample_directory
              "2" 1000 500 sample_auth ∅ valid_alpha "alpha" alpha_entry
              (set_profile_valid sample_profile) (world_of unreachable None))
    as (l1 & l2 & Hrun).
  - apply due_valid_alpha.
  - exact I.
  - exists l1, l2. rewrite Hrun, lookup_empty. reflexivity.
Defined.


(** ** The run as a whole *)

Lemma offline_ret {A} (a : A) : offline (ret a).
Proof. by intros w. Qed.

Lemma offline_raise {A} e : offline (@raise A e).
Proof. by intros w. Qed.

Lemma offline_getitem {A} key (o : option A) : offline (getitem key o).
Proof. by destruct o. Qed.

Lemma offline_LOGGER l m a : offline (_LOGGER l m a).
Proof. by intros w. Qed.

Lemma offline_read_state_file : offline read_state_file.
Proof.
  intros w. unfold read_state_file.
  by destruct (sync_file w) as [[| |]|] eqn:E; simpl; rewrite ?E.
Qed.

Lemma offline_bind {A B} (m : M A) (k : A → M B) :
  offline m → (∀ a, offline (k a)) → offline (bind m k).
Proof.
  intros Hm Hk w. specialize (Hm w). unfold bind.
  destruct (m w) as [[a|x|] w1]; simpl in *; try done.
  destruct (Hk a w1) as (-> & -> & ->). done.
Qed.

Lemma offline_try_except {A} (body : M A) caught handler :
  offline body → (∀ e, offline (handler e)) →
  offline (try_except body caught handler).
Proof.
  intros Hm Hk w. specialize (Hm w). unfold try_except.
  destruct (body w) as [[a|x|] w1]; simpl in *; try done.
  destruct (caught x); [|done].
  destruct (Hk x w1) as (-> & -> & ->). done.
Qed.

Lemma offline_for_each {A S} (body : S → A → M S) l :
  (∀ s a, offline (body s a)) → ∀ s, offline (for_each body l s).
Proof.
  intros Hbody. induction l as [|a l IH]; intros s; simpl.
  - apply offline_ret.
  - apply offline_bind; [apply Hbody | intros; apply IH].
Qed.

Create HintDb offline.
#[local] Hint Resolve offline_ret offline_raise offline_getitem offline_LOGGER
  offline_read_state_file : offline.

Ltac offline_walk :=
  repeat first
    [ progress cbv zeta
    | solve [auto with offline]
    | apply offline_bind; [|intros ?]
    | apply offline_try_except; [|intros ?]
    | apply offline_for_each; intros ? ?
    | match goal with
      | |- offline (match ?x with _ => _ end) => destruct x
      | |- offline (let '(_, _) := ?x in _) => destruct x
      end ].

Lemma offline_validate_profiles ps acc : offline (for_each validate_profile ps acc).
Proof. apply offline_for_each. intros. unfold validate_profile. offline_walk. Qed.

Lemma offline_validate_subaccounts ps days sas acc :
  offline (for_each (validate_subaccount ps days) sas acc).
Proof.
  apply offline_for_each. intros.
  unfold validate_subaccount, check_recipient. offline_walk.
Qed.

Lemma bind_cases {A B} (m : M A) (k : A → M B) w :
  bind m k w =
    match m w with
    | (Ret a, w1) => k a w1
    | (Raise e, w1) => (Raise e, w1)
    | (OutOfFuel, w1) => (OutOfFuel, w1)
    end.
Proof. unfold bind. by destruct (m w) as [[?|?|] ?]. Qed.

(** The load of the state file at the start of [main]. *)
Lemma state_load days path w :
  sync_file w ≠ Some FileEmpty →
  ∃ w1,
    try_except
      (state <- read_state_file ;;
       match state with
       | None =>
           _LOGGER INFO "State file is empty, reporting over the last %s days"
             [days]
       | Some _ => ret tt
       end ;;
       ret state)
      (λ e, match e with FileNotFoundError => true | _ => false end)
      (λ _,
         _LOGGER DEBUG "State file %s not found, creating initial file" [path] ;;
         ret (Some ∅)) w = (Ret (loaded_state (sync_file w)), w1) ∧
    remote w1 = remote w ∧ calls w1 = calls w ∧ sync_file w1 = sync_file w.
Proof.
  intros Hfile. unfold try_except, bind, read_state_file.
  destruct (sync_file w) as [[| |m]|] eqn:E; [done|by eexists..].
Qed.

Section WholeRun.
Context `{PyLib}.

(** Without its credentials, its two paths or its configuration, a run
    ends at once with exit status 1: one error line, no request, and the
    state file neither read nor written. *)
Theorem fatal_configuration (fuel : nat) (h : host) (w : world) :
  MAILJET_APP_ID h = None ∨ MAILJET_APP_SECRET h = None ∨
  CONFIG_FILE h = None ∨ SYNC_STATE h = None ∨
  config_file h = None ∨ config_file h = Some None →
  ∃ line,
    main fuel h w = (Raise (SystemExit 1), with_log line w) ∧ lvl line = ERROR.
Proof.
  intros Hbad. unfold main, run_reports, startup. cbv zeta.
  destruct (MAILJET_APP_ID h) as [i|] eqn:Ei; [|by eexists].
  destruct (MAILJET_APP_SECRET h) as [s|] eqn:Es; [|by eexists].
  destruct (CONFIG_FILE h) as [c|] eqn:Ec; [|by eexists].
  destruct (SYNC_STATE h) as [sp|] eqn:Esp; [|by eexists].
  destruct (config_file h) as [[cfg|]|] eqn:Ecfg; [|by eexists..].
  exfalso. destruct Hbad as [?|[?|[?|[?|[?|?]]]]]; discriminate.
Qed.

(** A well-configured run up to the directory listing: it has made no
    request and has not changed the state file when it asks for the
    directory with the master credentials, and what it then has in hand
    is the configuration, the validated profiles and entries, today's
    day of the week, the clock's time, the default start of the window
    and the state loaded from the file. *)
Lemma startup_well_configured fuel h cfg w master :
  well_configured h cfg → master_of h = Some master →
  cfg_profiles cfg ≠ [] → cfg_subaccount_reports cfg ≠ [] →
  sync_file w ≠ Some FileEmpty →
  let ps := prod_map id validated_profile <$> cfg_profiles cfg in
  let days := default "01234" (gs_report_days (cfg_global_settings cfg)) in
  ∃ w1 w2 sas,
    fst (for_each (validate_subaccount ps days) (cfg_subaccount_reports cfg)
           [] w1) = Ret sas ∧
    remote w2 = remote w ∧ calls w2 = calls w ∧ sync_file w2 = sync_file w ∧
    startup fuel h w =
      match get_subaccount_data fuel master w2 with
      | (Ret (Some d), w3) =>
          (Ret {| re_cfg := cfg; re_profiles := ps;
                  re_subaccount_reports := sas;
                  re_subaccount_data := d;
                  re_day_of_week := pretty (isoweekday h);
                  re_current_ts := time h;
                  re_default_last_ts :=
                    time h - 86400 * default 1 (gs_default_max_report_days
                                                  (cfg_global_settings cfg));
                  re_master_auth := master;
                  re_state := loaded_state (sync_file w) |}, w3)
      | (Ret None, w3) =>
          (Raise (SystemExit 1),
           with_log {| lvl := ERROR; msg := "Error fetching subaccounts, aborting";
                       args := [] |} w3)
      | (Raise x, w3) => (Raise x, w3)
      | (OutOfFuel, w3) => (OutOfFuel, w3)
      end.
Proof.
  intros ([i Hi] & [s Hs] & [c Hc] & [sp Hsp] & Hcfg) Hmaster Hps Hsas Hfile
    ps days.
  unfold master_of in Hmaster. rewrite Hi, Hs in Hmaster. injection Hmaster as <-.
  unfold startup. cbv zeta.
  rewrite Hi, Hs, bind_ret_l, Hc, Hsp, bind_ret_l, Hcfg, bind_ret_l.
  match goal with
  | |- context [_LOGGER INFO _ [?d]] =>
      destruct (state_load d sp w Hfile) as (w1 & Hload & Hr1 & Hc1 & Hf1)
  end.
  cbn [fst snd] in *.
  rewrite (bind_returned _ _ _ _ _ Hload).
  destruct (cfg_profiles cfg) as [|np nps] eqn:Eps; [done|].
  cbn [is_empty]. rewrite bind_ret_l.
  destruct (validate_profiles_map (np :: nps) [] w1) as (w1' & Hv1 & _).
  destruct (offline_validate_profiles (np :: nps) [] w1) as (Hr2 & Hc2 & Hf2).
  rewrite Hv1 in Hr2, Hc2, Hf2. cbn [snd] in Hr2, Hc2, Hf2.
  rewrite (bind_returned _ _ _ _ _ Hv1). rewrite app_nil_l.
  destruct (cfg_subaccount_reports cfg) as [|sa0 sas0] eqn:Esas; [done|].
  cbn [is_empty]. rewrite bind_ret_l.
  fold ps. fold days.
  destruct (validation_total ps days (sa0 :: sas0) [] w1') as (sas & Hv2 & _).
  destruct (offline_validate_subaccounts ps days (sa0 :: sas0) [] w1')
    as (Hr3 & Hc3 & Hf3).
  destruct (for_each (validate_subaccount ps days) (sa0 :: sas0) [] w1')
    as [o w2] eqn:Ev2.
  cbn [fst snd] in Hv2, Hr3, Hc3, Hf3. subst o. rewrite app_nil_l in Ev2.
  exists w1', w2, sas. split; [by rewrite Ev2|].
  split; [congruence|]. split; [congruence|]. split; [congruence|].
  rewrite (bind_returned _ _ _ _ _ Ev2), bind_cases.
  by destruct (get_subaccount_data fuel _ w2) as [[[d|]|x|] w3].
Qed.

(** A well-configured run whose configuration has no profiles, or no
    subaccount reports, ends with exit status 1 once it has read the
    state file: it makes no request and does not write the file. *)
Theorem nothing_to_report_exits (fuel : nat) (h : host) (cfg : config)
    (w : world) :
  well_configured h cfg → sync_file w ≠ Some FileEmpty →
  cfg_profiles cfg = [] ∨ cfg_subaccount_reports cfg = [] →
  ∃ w',
    main fuel h w = (Raise (SystemExit 1), w') ∧
    remote w' = remote w ∧ calls w' = calls w ∧ sync_file w' = sync_file w.
Proof.
  intros ([i Hi] & [s Hs] & [c Hc] & [sp Hsp] & Hcfg) Hfile Hempty.
  assert (∃ w', startup fuel h w = (Raise (SystemExit 1), w') ∧
                remote w' = remote w ∧ calls w' = calls w ∧
                sync_file w' = sync_file w) as (w' & Hstart & Hw').
  { unfold startup. cbv zeta.
    rewrite Hi, Hs, bind_ret_l, Hc, Hsp, bind_ret_l, Hcfg, bind_ret_l.
    match goal with
    | |- context [_LOGGER INFO _ [?d]] =>
        destruct (state_load d sp w Hfile) as (w1 & Hload & Hr1 & Hc1 & Hf1)
    end.
    rewrite (bind_returned _ _ _ _ _ Hload).
    destruct (cfg_profiles cfg) as [|np nps] eqn:Eps.
    { cbn [is_empty]. by eexists. }
    cbn [is_empty]. rewrite bind_ret_l.
    destruct (validate_profiles_map (np :: nps) [] w1) as (w1' & Hv1 & _).
    destruct (offline_validate_profiles (np :: nps) [] w1) as (Hr2 & Hc2 & Hf2).
    rewrite Hv1 in Hr2, Hc2, Hf2. cbn [snd] in Hr2, Hc2, Hf2.
    rewrite (bind_returned _ _ _ _ _ Hv1).
    destruct Hempty as [?|Hnone]; [done|]. rewrite Hnone. cbn [is_empty].
    eexists. split; [reflexivity|]. cbn. repeat split; congruence. }
  exists w'. split; [|done].
  unfold main, run_reports.
  by rewrite (bind_raised _ _ _ _ _ (bind_raised _ _ _ _ _ Hstart)).
Qed.

(** When the count probe of the directory listing fails, a
    well-configured run ends with exit status 1: that probe is its only
    request, and it does not write the state file. *)
Theorem directory_failure_is_fatal (fuel : nat) (h : host) (cfg : config)
    (master : HTTPBasicAuth) (w : world) :
  well_configured h cfg → master_of h = Some master →
  cfg_profiles cfg ≠ [] → cfg_subaccount_reports cfg ≠ [] →
  sync_file w ≠ Some FileEmpty →
  probe_fails (remote w (calls w) (probe_call MAILJET_APIKEY_API master ∅)) →
  ∃ w',
    main fuel h w = (Raise (SystemExit 1), w') ∧
    calls w' = calls w ++ [probe_call MAILJET_APIKEY_API master ∅] ∧
    sync_file w' = sync_file w.
Proof.
  intros Hwc Hmaster Hps Hsas Hfile Hfail.
  destruct (startup_well_configured fuel h cfg w master Hwc Hmaster Hps Hsas
              Hfile) as (w1 & w2 & sas & _ & Hr & Hc & Hf & Hstart).
  rewrite get_subaccount_data_unfold, get_mailjet_data_list_unfold in Hstart.
  change (default ∅ None) with (∅ : gmap string val) in Hstart.
  rewrite Hr, Hc in Hstart.
  assert (∃ w', startup fuel h w = (Raise (SystemExit 1), w') ∧
                calls w' = calls w ++ [probe_call MAILJET_APIKEY_API master ∅] ∧
                sync_file w' = sync_file w) as (w' & Hraise & Hw').
  { destruct (remote w (calls w) _) as [|code [|[n|] d]]; [| |done|];
      (eexists; split; [exact Hstart|]; cbn; by rewrite Hc, Hf). }
  exists w'. split; [|done].
  unfold main, run_reports.
  by rewrite (bind_raised _ _ _ _ _ (bind_raised _ _ _ _ _ Hraise)).
Qed.

(** One pass of the loop body changes the state only if it posts. *)
Lemma process_subaccount_silent fuel e m sa w st' cs :
  fst (process_subaccount fuel (re_cfg e) (re_profiles e) (re_subaccount_data e)
         (re_day_of_week e) (re_current_ts e) (re_default_last_ts e)
         (re_master_auth e) (Some m) sa w) = Ret st' →
  calls (snd (process_subaccount fuel (re_cfg e) (re_profiles e)
                (re_subaccount_data e) (re_day_of_week e) (re_current_ts e)
                (re_default_last_ts e) (re_master_auth e) (Some m) sa w)) =
    calls w ++ cs →
  Forall (λ c, is_post c = false) cs →
  st' = Some m.
Proof.
  rewrite process_subaccount_cases.
  destruct (emits_gather_report (λ _, True) fuel (re_profiles e)
              (re_subaccount_data e) (re_day_of_week e) (re_current_ts e)
              (re_default_last_ts e) (Some m) sa (λ _ _, I) w) as (csg & Hg & _).
  destruct (gather_report _ _ _ _ _ _ _ _ _) as [[[j|]|x|] wg];
    simpl in *; try discriminate; [|by intros [= <-]].
  destruct (send_report_cases (re_cfg e) sa (job_stats j) (job_details j)
              (job_last_ts j) (re_current_ts e) (re_master_auth e) wg)
    as [(x & _ & ->)|[[-> _]|(pd & t & n & html & msg & _ & _ & _ & _ & _ & _ & _
                               & Hcalls & Hret)]];
    simpl; try discriminate; [by intros [= <-]|].
  destruct (send_report _ _ _ _ _ _ _ _) as [[[|]|x|] w2];
    simpl in *; try discriminate; [|by intros [= <-]].
  intros _ Hcs Hsilent. exfalso.
  rewrite Hcalls, Hg, <- app_assoc in Hcs. apply app_inv_head in Hcs as <-.
  apply Forall_app in Hsilent as [_ Hpost].
  apply Forall_inv in Hpost. simpl in Hpost. discriminate Hpost.
Qed.

Lemma process_reports_silent fuel e sas :
  ∀ m w st' cs,
    fst (process_reports fuel e sas (Some m) w) = Ret st' →
    calls (snd (process_reports fuel e sas (Some m) w)) = calls w ++ cs →
    Forall (λ c, is_post c = false) cs →
    st' = Some m.
Proof.
  induction sas as [|sa sas IH]; intros m w st' cs.
  - simpl. by intros [= <-].
  - unfold process_reports. rewrite for_each_cons.
    destruct (emits_process_subaccount (λ _, True) fuel (re_cfg e)
                (re_profiles e) (re_subaccount_data e) (re_day_of_week e)
                (re_current_ts e) (re_default_last_ts e) (re_master_auth e)
                (Some m) sa (λ _ _, I) (λ _ _, I) w) as (cs1 & Hcs1 & _).
    pose proof (process_subaccount_silent fuel e m sa w) as Hstep.
    destruct (process_subaccount _ _ _ _ _ _ _ _ _ _ _) as [[st1|x|] w1];
      simpl in *; try discriminate.
    intros Hrest Hcalls Hsilent.
    assert (∃ cs2, calls (snd (process_reports fuel e sas st1 w1)) =
                     calls w1 ++ cs2) as [cs2 Hcs2].
    { destruct (emits_for_each (λ _, True)
                  (process_subaccount fuel (re_cfg e) (re_profiles e)
                     (re_subaccount_data e) (re_day_of_week e) (re_current_ts e)
                     (re_default_last_ts e) (re_master_auth e)) sas) with
        (s := st1) (w := w1) as (cs2 & Hcs2 & _); [|by exists cs2].
      intros st sa'. by apply emits_process_subaccount. }
    unfold process_reports in Hcs2. rewrite Hcs2, Hcs1, <- app_assoc in Hcalls.
    apply app_inv_head in Hcalls as <-.
    apply Forall_app in Hsilent as [Hs1 Hs2].
    rewrite (Hstep st1 cs1 eq_refl Hcs1 Hs1) in *.
    apply (IH m w1 st' cs2); [done| |done].
    unfold process_reports. by rewrite Hcs2, Hcs1.
Qed.

(** A run that completes without posting a message writes back the
    watermarks it loaded: no watermark moves without a report sent. *)
Theorem silent_run_keeps_watermarks (fuel : nat) (h : host) (w : world)
    (m : gmap string Z) :
  loaded_state (sync_file w) = Some m →
  fst (main fuel h w) = Ret tt →
  Forall (λ c, is_post c = false)
    (drop (length (calls w)) (calls (snd (main fuel h w)))) →
  sync_file (snd (main fuel h w)) = Some (FileDict m).
Proof.
  intros Hfile Hmain Hsilent.
  destruct (bind_fst_ret _ _ _ _ Hmain) as (st & Hrun & Emain).
  destruct (bind_fst_ret _ _ _ _ Hrun) as (e & Hstart & Erun).
  destruct (startup_state _ _ _ _ Hstart) as [_ Hst]. rewrite Hfile in Hst.
  destruct (emits_startup fuel h w) as (cs0 & Hcs0 & _).
  assert (calls (snd (main fuel h w)) = calls (snd (run_reports fuel h w)))
    as Hsame by (unfold main; by rewrite Emain).
  rewrite Hsame in Hsilent.
  unfold run_reports in Hrun, Hsilent. rewrite Erun, Hst in Hrun, Hsilent.
  destruct (emits_for_each (λ _, True)
              (process_subaccount fuel (re_cfg e) (re_profiles e)
                 (re_subaccount_data e) (re_day_of_week e) (re_current_ts e)
                 (re_default_last_ts e) (re_master_auth e))
              (re_subaccount_reports e)) with
    (s := Some m) (w := snd (startup fuel h w)) as (cs & Hcs & _).
  { intros st0 sa. by apply emits_process_subaccount. }
  fold (process_reports fuel e (re_subaccount_reports e) (Some m)) in Hcs.
  rewrite Hcs, Hcs0, <- app_assoc, drop_app_length in Hsilent.
  apply Forall_app in Hsilent as [_ Hsilent].
  rewrite (process_reports_silent fuel e _ _ _ _ _ Hrun Hcs Hsilent) in Emain.
  unfold main. by rewrite Emain.
Qed.

End WholeRun.


Lemma fatal_configuration_witness :
  ∃ line,
    @main sample_lib 3 host_without_key (world_of unreachable None) =
      (Raise (SystemExit 1), with_log line (world_of unreachable None)).
Proof.
  destruct (@fatal_configuration sample_lib 3 host_without_key
              (world_of unreachable None)) as (line & Hrun & _).
  - by left.
  - by exists line.
Defined.

Lemma sample_host_well_configured cfg now :
  well_configured (sample_host cfg now) cfg.
Proof. repeat split; by eexists. Qed.

Lemma nothing_to_report_exits_witness :
  ∃ w',
    @main sample_lib 3 (sample_host (sample_config []) 1000)
      (world_of unreachable None) = (Raise (SystemExit 1), w') ∧
    calls w' = [].
Proof.
  destruct (@nothing_to_report_exits sample_lib 3
              (sample_host (sample_config []) 1000) (sample_config [])
              (world_of unreachable None)) as (w' & Hrun & _ & Hcalls & _).
  - apply sample_host_well_configured.
  - discriminate.
  - by right.
  - by exists w'.
Defined.

Lemma directory_failure_is_fatal_witness :
  ∃ w',
    @main sample_lib 3
      (sample_host (sample_config [sample_subaccount (Some "alpha")]) 1000)
      (world_of unreachable None) = (Raise (SystemExit 1), w') ∧
    calls w' = [probe_call MAILJET_APIKEY_API sample_master ∅].
Proof.
  destruct (@directory_failure_is_fatal sample_lib 3
              (sample_host (sample_config [sample_subaccount (Some "alpha")]) 1000)
              (sample_config [sample_subaccount (Some "alpha")])
              sample_master (world_of unreachable None))
    as (w' & Hrun & Hcalls & _).
  - apply sample_host_well_configured.
  - reflexivity.
  - discriminate.
  - discriminate.
  - discriminate.
  - exact I.
  - by exists w'.
Defined.

Lemma silent_run_keeps_watermarks_witness :
  sync_file
    (snd (@main sample_lib 5
            (sample_host (sample_config [sample_subaccount (Some "beta")]) 1000)
            (world_of (provider sample_keys [bounce_event]
                         (Response 200 (Body None None)))
               (Some (FileDict {["7" := 500]}))))) =
  Some (FileDict {["7" := 500]}).
Proof.
  apply (@silent_run_keeps_watermarks sample_lib 5
           (sample_host (sample_config [sample_subaccount (Some "beta")]) 1000)
           (world_of (provider sample_keys [bounce_event]
                        (Response 200 (Body None None)))
              (Some (FileDict {["7" := 500]})))
           {["7" := 500]}).
  - reflexivity.
  - vm_compute. reflexivity.
  - vm_compute. repeat constructor.
Defined.
